(** * mcp_postgres.server: the request handlers of the PostgreSQL gateway

    A shallow embedding of [src/mcp_postgres/server.py].  The three
    connection-using handlers ([handle_list_resources],
    [handle_read_resource], [handle_call_tool]) are written in a small
    monad that threads the log of driver calls and the handler's local
    variable [conn], and that has Python's [try]/[except]/[finally] and
    [with] as combinators.  The pool, the connection, the cursor and the
    logger are the environment: every call into them is answered by an
    [Env], which sees the calls made so far and may make any call fail. *)

From Stdlib Require Import ZArith NArith List String Ascii DecimalString Lia.
From stdpp Require Import base option list countable gmap.
Import ListNotations.
Local Open Scope N_scope.

(** ** Python strings *)

(** A Python [str] is a sequence of Unicode code points. *)
Abbreviation pystr := (list N).

Module PyStr.

(** Source literals are written as UTF-8 text and decoded to code points. *)
Fixpoint utf8_decode (bs : list N) : pystr :=
  match bs with
  | [] => []
  | b :: r =>
      if b <? 128 then b :: utf8_decode r
      else if b <? 224 then
        match r with
        | c1 :: r1 => ((b mod 32) * 64 + c1 mod 64) :: utf8_decode r1
        | _ => []
        end
      else if b <? 240 then
        match r with
        | c1 :: c2 :: r2 =>
            ((b mod 16) * 4096 + (c1 mod 64) * 64 + c2 mod 64) :: utf8_decode r2
        | _ => []
        end
      else
        match r with
        | c1 :: c2 :: c3 :: r3 =>
            ((b mod 8) * 262144 + (c1 mod 64) * 4096 + (c2 mod 64) * 64 + c3 mod 64)
              :: utf8_decode r3
        | _ => []
        end
  end.

Definition py (s : string) : pystr :=
  utf8_decode (map N_of_ascii (list_ascii_of_string s)).

(** [a == b] on two strings. *)
Fixpoint eqb (a b : pystr) : bool :=
  match a, b with
  | [], [] => true
  | x :: a', y :: b' => (x =? y) && eqb a' b'
  | _, _ => false
  end.

(** [s.startswith(p)]. *)
Fixpoint startswith (s p : pystr) : bool :=
  match p, s with
  | [], _ => true
  | y :: p', x :: s' => (x =? y) && startswith s' p'
  | _ :: _, [] => false
  end.

(** The code points [str.strip()] removes: those for which [str.isspace]
    holds (bidirectional type WS, B or S, or category Zs). *)
Definition isspace (c : N) : bool :=
  ((9 <=? c) && (c <=? 13)) || ((28 <=? c) && (c <=? 32))
  || (c =? 133) || (c =? 160) || (c =? 5760)
  || ((8192 <=? c) && (c <=? 8202))
  || (c =? 8232) || (c =? 8233) || (c =? 8239) || (c =? 8287) || (c =? 12288).

Fixpoint lstrip (s : pystr) : pystr :=
  match s with
  | [] => []
  | c :: r => if isspace c then lstrip r else s
  end.

Definition rstrip (s : pystr) : pystr := rev (lstrip (rev s)).

(** [s.strip()]. *)
Definition strip (s : pystr) : pystr := rstrip (lstrip s).

(** [s.lower()].  ASCII letters are mapped here; the lowercase mapping of a
    code point outside ASCII comes from the interpreter's Unicode tables
    [tbl], which see the text before and after the code point (the
    final-sigma rule) and may answer with several code points. *)
Definition lower_cp (tbl : pystr -> N -> pystr -> pystr)
    (before : pystr) (c : N) (after : pystr) : pystr :=
  if (65 <=? c) && (c <=? 90) then [c + 32]
  else if c <? 128 then [c]
  else tbl before c after.

Fixpoint lower_from (tbl : pystr -> N -> pystr -> pystr)
    (before s : pystr) : pystr :=
  match s with
  | [] => []
  | c :: r => lower_cp tbl before c r ++ lower_from tbl (before ++ [c]) r
  end.

Definition lower (tbl : pystr -> N -> pystr -> pystr) (s : pystr) : pystr :=
  lower_from tbl [] s.

(** [s.split(sep)] for a one-character separator: one more piece than
    there are separators, so never the empty list. *)
Fixpoint split (sep : N) (s : pystr) : list pystr :=
  match s with
  | [] => [[]]
  | c :: r =>
      if c =? sep then [] :: split sep r
      else match split sep r with
           | w :: ws => (c :: w) :: ws
           | [] => [[c]]
           end
  end.

End PyStr.

(** [l[-k]] for [k >= 1]: the [k]-th element from the end; [None] stands
    for Python's [IndexError]. *)
Definition index_from_end {A} (l : list A) (k : nat) : option A :=
  if (length l <? k)%nat then None else l !! (length l - k)%nat.

(** ** Python values *)

(** The values that travel between the driver and the handlers: cells of a
    result row, query parameters, and the dictionaries the handlers build
    before they call [str] on them. *)
#[warnings="-register-all"]
Inductive pyval :=
| PyNone
| PyBool (b : bool)
| PyInt (z : Z)
| PyStr (s : pystr)
| PyList (l : list pyval)
| PyDict (kv : list (pystr * pyval)).

(** Truth value of a value, as [if v] tests it. *)
Definition truthy (v : pyval) : bool :=
  match v with
  | PyNone => false
  | PyBool b => b
  | PyInt z => negb (z =? 0)%Z
  | PyStr s => negb (PyStr.eqb s [])
  | PyList l => match l with [] => false | _ => true end
  | PyDict kv => match kv with [] => false | _ => true end
  end.

(** [v == s] for a string literal [s]: only an equal string is equal. *)
Definition eq_str (v : pyval) (s : pystr) : bool :=
  match v with
  | PyStr t => PyStr.eqb t s
  | _ => false
  end.

(** What the interpreter supplies and the source relies on: the Unicode
    lowercase tables behind [str.lower] and the rendering [str(v)] of a
    value. *)
Record PyRuntime := {
  unicode_lower : pystr -> N -> pystr -> pystr;
  py_str : pyval -> pystr
}.

(** [{v}] inside an f-string: a string is inserted as it is, anything else
    through [str]. *)
Definition py_format (rt : PyRuntime) (v : pyval) : pystr :=
  match v with
  | PyStr s => s
  | _ => py_str rt v
  end.

(** [dict(pairs)]: a later pair with a key already present replaces the
    value and keeps the key's position. *)
Fixpoint dict_set (kv : list (pystr * pyval)) (k : pystr) (v : pyval)
    : list (pystr * pyval) :=
  match kv with
  | [] => [(k, v)]
  | (k', v') :: r =>
      if PyStr.eqb k' k then (k', v) :: r else (k', v') :: dict_set r k v
  end.

Definition py_dict (pairs : list (pystr * pyval)) : list (pystr * pyval) :=
  fold_left (fun d p => dict_set d (fst p) (snd p)) pairs [].

(** [zip(a, b)] stops at the shorter argument. *)
Fixpoint py_zip {A B} (a : list A) (b : list B) : list (A * B) :=
  match a, b with
  | x :: a', y :: b' => (x, y) :: py_zip a' b'
  | _, _ => []
  end.


(** ** Exceptions, driver calls and the environment *)

(** The exceptions that occur.  [PsycopgError] stands for [psycopg2.Error]
    and all its subclasses (the pool's [PoolError] is one of them) and
    carries [str(e)]; [OtherError] is any exception from outside the
    driver's hierarchy. *)
Inductive exn :=
| ValueError (msg : pystr)
| IndexError
| TypeError
| UnboundLocalError (var : pystr)
| PsycopgError (msg : pystr)
| OtherError (msg : pystr).

(** How a statement ends: with a value or with an exception in flight. *)
Inductive outcome (A : Type) :=
| Return (a : A)
| Raise (e : exn).
Arguments Return {A} a.
Arguments Raise {A} e.

Definition raised {A} (o : outcome A) : option exn :=
  match o with
  | Return _ => None
  | Raise e => Some e
  end.

(** Connections and cursors are handles. *)
Abbreviation connection := N.
Abbreviation cursor := N.

(** A result row is a tuple of values. *)
Abbreviation row := (list pyval).

(** An entry of [cursor.description]; the handlers read field 0, the name. *)
Record Column := { col_name : pystr; col_type_code : Z }.

(** The calls a handler makes into the pool, the connection, the cursor and
    the logger. *)
Inductive call :=
| Getconn                                           (* self.pool.getconn() *)
| Putconn (c : connection)                          (* self.pool.putconn(c) *)
| Cursor (c : connection)                           (* c.cursor() *)
| Execute (k : cursor) (q : pystr) (params : row)   (* k.execute(q, params) *)
| Fetchall (k : cursor)                             (* k.fetchall() *)
| CursorExit (k : cursor)                           (* leaving [with ... as k] *)
| Log (level msg : pystr).                          (* self.log(level, msg) *)

(** A call together with the exception it raised, if any. *)
Record event := Ev { ev_call : call; ev_exn : option exn }.

Abbreviation trace := (list event).

(** [types.Resource] and [types.TextContent], with the fields the handlers
    set.  A [Resource] is what mcp's model holds after it has validated its
    arguments; its [uri] is the text of the validated URL. *)
Module types.

Record Resource := {
  uri : pystr;
  name : pystr;
  description : pyval;
  mimeType : pystr
}.

Record TextContent := { type : pystr; text : pystr }.

End types.

(** The environment answers every call, knowing the calls made so far.
    [host] is [self.config.host].  [new_resource uri name description
    mimeType] is the constructor [types.Resource(...)] of the mcp package:
    it validates its arguments, may hand back a URI it has normalised, and
    raises when the validation fails. *)
Record Env := {
  rt : PyRuntime;
  host : pystr;
  new_resource : pystr -> pystr -> pyval -> pystr -> outcome types.Resource;
  pool_getconn : trace -> outcome connection;
  conn_cursor : trace -> connection -> outcome cursor;
  cur_execute : trace -> cursor -> pystr -> row -> outcome unit;
  cur_fetchall : trace -> cursor -> outcome (list row);
  cur_description : trace -> cursor -> option (list Column);
  cur_exit : trace -> cursor -> outcome unit;
  pool_putconn : trace -> connection -> outcome unit
}.

(** ** The handler monad *)

(** What a handler carries along: the calls made so far, in order, and its
    local variable [conn], unbound until [getconn] has returned. *)
Record frame := Frame { calls : trace; conn_var : option connection }.

Definition M (A : Type) : Type := Env -> frame -> frame * outcome A.

Definition ret {A} (a : A) : M A := fun _ st => (st, Return a).

Definition raise {A} (e : exn) : M A := fun _ st => (st, Raise e).

Definition bind {A B} (m : M A) (f : A -> M B) : M B :=
  fun env st =>
    match m env st with
    | (st1, Return a) => f a env st1
    | (st1, Raise e) => (st1, Raise e)
    end.

Declare Scope handler_scope.
Delimit Scope handler_scope with handler.
Notation "'let*' x := m 'in' k" := (bind m (fun x => k))
  (at level 10, x name, m at level 100, k at level 200) : handler_scope.
Notation "m ;; k" := (bind m (fun _ => k))
  (at level 100, k at level 200, right associativity) : handler_scope.
Local Open Scope handler_scope.

(** Reading one of the environment's values. *)
Definition asks {A} (f : Env -> A) : M A := fun env st => (st, Return (f env)).

(** One call: the environment decides its outcome, the call is logged. *)
Definition perform {A} (c : call) (answer : Env -> trace -> outcome A) : M A :=
  fun env st =>
    let o := answer env (calls st) in
    (Frame (calls st ++ [Ev c (raised o)]) (conn_var st), o).

(** [try: body finally: fin]: [fin] runs however [body] ended; an exception
    from [fin] replaces whatever was in flight. *)
Definition try_finally {A} (body : M A) (fin : M unit) : M A :=
  fun env st =>
    match body env st with
    | (st1, o) =>
        match fin env st1 with
        | (st2, Return _) => (st2, o)
        | (st2, Raise e) => (st2, Raise e)
        end
    end.

(** [try: body except E as e: handler]: [catches] tells the exceptions of
    class [E]. *)
Definition try_except {A} (body : M A) (catches : exn -> bool)
    (handler : exn -> M A) : M A :=
  fun env st =>
    match body env st with
    | (st1, Raise e) => if catches e then handler e env st1 else (st1, Raise e)
    | r => r
    end.

(** [isinstance(e, psycopg2.Error)]. *)
Definition is_psycopg_error (e : exn) : bool :=
  match e with
  | PsycopgError _ => true
  | _ => false
  end.

(** [str(e)] for the exceptions that carry their message; the handlers
    apply it to driver errors only. *)
Definition exn_str (e : exn) : pystr :=
  match e with
  | ValueError m | PsycopgError m | OtherError m => m
  | IndexError | TypeError | UnboundLocalError _ => []
  end.

(** A list comprehension whose element expression may raise. *)
Fixpoint comprehension {A B} (f : A -> M B) (l : list A) : M (list B) :=
  match l with
  | [] => ret []
  | x :: r => let* y := f x in let* ys := comprehension f r in ret (y :: ys)
  end.

(** [t[i]] on a tuple. *)
Definition item (t : row) (i : nat) : M pyval :=
  match t !! i with
  | Some v => ret v
  | None => raise IndexError
  end.

(** The driver calls. *)
Definition getconn : M connection := perform Getconn pool_getconn.

Definition putconn (c : connection) : M unit :=
  perform (Putconn c) (fun env t => pool_putconn env t c).

Definition open_cursor (c : connection) : M cursor :=
  perform (Cursor c) (fun env t => conn_cursor env t c).

Definition execute (k : cursor) (q : pystr) (params : row) : M unit :=
  perform (Execute k q params) (fun env t => cur_execute env t k q params).

Definition fetchall (k : cursor) : M (list row) :=
  perform (Fetchall k) (fun env t => cur_fetchall env t k).

Definition cursor_exit (k : cursor) : M unit :=
  perform (CursorExit k) (fun env t => cur_exit env t k).

(** [self.log(level, msg)]: recorded like the other calls; the logger
    returns normally. *)
Definition log (level msg : pystr) : M unit :=
  perform (Log level msg) (fun _ _ => Return tt).

(** [cur.description], an attribute of the cursor. *)
Definition cursor_description (k : cursor) : M (option (list Column)) :=
  fun env st => (st, Return (cur_description env (calls st) k)).

(** [conn = ...]: binds the local variable. *)
Definition bind_conn (c : connection) : M unit :=
  fun _ st => (Frame (calls st) (Some c), Return tt).

(** Reading [conn]: an unbound local raises [UnboundLocalError]. *)
Definition read_conn : M connection :=
  fun _ st =>
    match conn_var st with
    | Some c => (st, Return c)
    | None => (st, Raise (UnboundLocalError (PyStr.py "conn")))
    end.

(** [with conn.cursor() as cur: body]: the cursor is closed on the way
    out, however [body] ended; psycopg2's [__exit__] suppresses nothing. *)
Definition with_cursor {A} (c : connection) (body : cursor -> M A) : M A :=
  let* k := open_cursor c in try_finally (body k) (cursor_exit k).

(** Running a handler from a fresh frame: the calls it made and how it
    ended. *)
Definition run {A} (m : M A) (env : Env) : trace * outcome A :=
  match m env (Frame [] None) with
  | (st, o) => (calls st, o)
  end.

(** ** The literals of server.py *)

Module Lit.
Import PyStr.

Definition QUERY : pystr := Eval vm_compute in py "query".
Definition SQL : pystr := Eval vm_compute in py "sql".
Definition SELECT : pystr := Eval vm_compute in py "select".
Definition YES : pystr := Eval vm_compute in py "YES".
Definition TEXT : pystr := Eval vm_compute in py "text".
Definition INFO : pystr := Eval vm_compute in py "info".
Definition ERROR : pystr := Eval vm_compute in py "error".
Definition SLASH : N := 47.

Definition UNKNOWN_TOOL : pystr := Eval vm_compute in py "未知工具: ".
Definition EMPTY_QUERY : pystr := Eval vm_compute in py "SQL查询不能为空".
Definition NON_SELECT_QUERY : pystr := Eval vm_compute in py "仅支持SELECT查询".
Definition RUNNING_QUERY : pystr := Eval vm_compute in py "执行查询: ".
Definition QUERY_DONE_1 : pystr := Eval vm_compute in py "查询完成，返回".
Definition QUERY_DONE_2 : pystr := Eval vm_compute in py "行结果".
Definition QUERY_FAILED : pystr := Eval vm_compute in py "查询执行失败: ".
Definition LIST_FAILED : pystr := Eval vm_compute in py "获取表列表失败: ".
Definition READ_FAILED : pystr := Eval vm_compute in py "读取表结构失败: ".

Definition BEGIN_READ_ONLY : pystr :=
  Eval vm_compute in py "BEGIN TRANSACTION READ ONLY".
Definition ROLLBACK : pystr := Eval vm_compute in py "ROLLBACK".

Definition URI_SCHEME : pystr := Eval vm_compute in py "postgres://".
Definition URI_SUFFIX : pystr := Eval vm_compute in py "/schema".
Definition NAME_SUFFIX : pystr := Eval vm_compute in py " schema".
Definition MIME_JSON : pystr := Eval vm_compute in py "application/json".

Definition K_COLUMNS : pystr := Eval vm_compute in py "columns".
Definition K_CONSTRAINTS : pystr := Eval vm_compute in py "constraints".
Definition K_NAME : pystr := Eval vm_compute in py "name".
Definition K_TYPE : pystr := Eval vm_compute in py "type".
Definition K_NULLABLE : pystr := Eval vm_compute in py "nullable".
Definition K_DESCRIPTION : pystr := Eval vm_compute in py "description".
Definition K_ROWS : pystr := Eval vm_compute in py "rows".
Definition K_ROW_COUNT : pystr := Eval vm_compute in py "row_count".

(** The three catalog queries, as the triple-quoted literals spell them. *)
Definition LIST_TABLES_SQL : pystr := Eval vm_compute in py "
                        SELECT 
                            table_name,
                            obj_description(
                                (quote_ident(table_schema) || '.' || quote_ident(table_name))::regclass,
                                'pg_class'
                            ) as description
                        FROM information_schema.tables 
                        WHERE table_schema = 'public'
                    ".

Definition COLUMNS_SQL : pystr := Eval vm_compute in py "
                        SELECT 
                            column_name,
                            data_type,
                            is_nullable,
                            col_description(
                                (quote_ident(table_schema) || '.' || quote_ident(table_name))::regclass,
                                ordinal_position
                            ) as description
                        FROM information_schema.columns 
                        WHERE table_name = %s
                        ORDER BY ordinal_position
                    ".

Definition CONSTRAINTS_SQL : pystr := Eval vm_compute in py "
                        SELECT
                            conname as constraint_name,
                            contype as constraint_type
                        FROM pg_constraint c
                        JOIN pg_class t ON c.conrelid = t.oid
                        WHERE t.relname = %s
                    ".

End Lit.

(** ** The handlers *)

(** The cleanup every handler ends with: [self.pool.putconn(conn)]. *)
Definition release : M unit :=
  let* c := read_conn in putconn c.

(** [types.Resource(uri=..., name=..., description=..., mimeType=...)]:
    the constructor makes no call to pool or database, and what it returns
    or raises is the environment's. *)
Definition Resource (uri name : pystr) (description : pyval) (mimeType : pystr)
    : M types.Resource :=
  fun env st => (st, new_resource env uri name description mimeType).

(** One element of the comprehension in [handle_list_resources]. *)
Definition resource_of_table (table : row) : M types.Resource :=
  let* t0 := item table 0 in
  let* t1 := item table 1 in
  let* h := asks host in
  let* r := asks rt in
  Resource
    (Lit.URI_SCHEME ++ h ++ [Lit.SLASH] ++ py_format r t0 ++ Lit.URI_SUFFIX)
    (py_format r t0 ++ Lit.NAME_SUFFIX)
    (if truthy t1 then t1 else PyNone)
    Lit.MIME_JSON.

Definition handle_list_resources : M (list types.Resource) :=
  try_finally
    (try_except
       (let* conn := getconn in
        bind_conn conn ;;
        with_cursor conn (fun cur =>
          execute cur Lit.LIST_TABLES_SQL [] ;;
          let* tables := fetchall cur in
          comprehension resource_of_table tables))
       is_psycopg_error
       (fun e => log Lit.ERROR (Lit.LIST_FAILED ++ exn_str e) ;; raise e))
    release.

(** [uri.split('/')[-2]]. *)
Definition table_name_of (uri : pystr) : option pystr :=
  index_from_end (PyStr.split Lit.SLASH uri) 2.

(** The elements of the two comprehensions in [handle_read_resource]. *)
Definition column_entry (col : row) : M pyval :=
  let* c0 := item col 0 in
  let* c1 := item col 1 in
  let* c2 := item col 2 in
  let* c3 := item col 3 in
  ret (PyDict [(Lit.K_NAME, c0);
               (Lit.K_TYPE, c1);
               (Lit.K_NULLABLE, PyBool (eq_str c2 Lit.YES));
               (Lit.K_DESCRIPTION, c3)]).

Definition constraint_entry (con : row) : M pyval :=
  let* c0 := item con 0 in
  let* c1 := item con 1 in
  ret (PyDict [(Lit.K_NAME, c0); (Lit.K_TYPE, c1)]).

Definition handle_read_resource (uri : pystr) : M pystr :=
  try_finally
    (try_except
       (let* table_name :=
          match table_name_of uri with
          | Some t => ret t
          | None => raise IndexError
          end in
        let* conn := getconn in
        bind_conn conn ;;
        with_cursor conn (fun cur =>
          execute cur Lit.COLUMNS_SQL [PyStr table_name] ;;
          let* columns := fetchall cur in
          execute cur Lit.CONSTRAINTS_SQL [PyStr table_name] ;;
          let* constraints := fetchall cur in
          let* cols := comprehension column_entry columns in
          let* cons := comprehension constraint_entry constraints in
          let* r := asks rt in
          ret (py_str r (PyDict [(Lit.K_COLUMNS, PyList cols);
                                 (Lit.K_CONSTRAINTS, PyList cons)]))))
       is_psycopg_error
       (fun e => log Lit.ERROR (Lit.READ_FAILED ++ exn_str e) ;; raise e))
    release.

(** The text of a successful query result. *)
Definition result_text (r : PyRuntime) (columns : list pystr)
    (results : list row) : pystr :=
  let formatted_results :=
    map (fun row0 => PyDict (py_dict (py_zip columns row0))) results in
  py_str r (PyDict [(Lit.K_COLUMNS, PyList (map PyStr columns));
                    (Lit.K_ROWS, PyList formatted_results);
                    (Lit.K_ROW_COUNT, PyInt (Z.of_nat (length results)))]).

(** The part of [handle_call_tool] inside [try]: the read-only
    transaction around the caller's statement. *)
Definition execute_read_only (sql : pystr) : M (list types.TextContent) :=
  let* conn := getconn in
  bind_conn conn ;;
  with_cursor conn (fun cur =>
    execute cur Lit.BEGIN_READ_ONLY [] ;;
    try_finally
      (execute cur sql [] ;;
       let* results := fetchall cur in
       let* desc := cursor_description cur in
       let* columns :=
         match desc with
         | Some ds => ret (map col_name ds)
         | None => raise TypeError
         end in
       let* r := asks rt in
       log Lit.INFO (Lit.QUERY_DONE_1
                       ++ py_str r (PyInt (Z.of_nat (length results)))
                       ++ Lit.QUERY_DONE_2) ;;
       ret [{| types.type := Lit.TEXT; types.text := result_text r columns results |}])
      (execute cur Lit.ROLLBACK [])).

(** What [handle_call_tool] does once its validation has passed: the
    [try]/[except]/[finally] around the transaction. *)
Definition guarded_query (sql : pystr) : M (list types.TextContent) :=
  log Lit.INFO (Lit.RUNNING_QUERY ++ sql) ;;
  try_finally
    (try_except
       (execute_read_only sql)
       is_psycopg_error
       (fun e =>
          let error_msg := Lit.QUERY_FAILED ++ exn_str e in
          log Lit.ERROR error_msg ;;
          ret [{| types.type := Lit.TEXT; types.text := error_msg |}]))
    release.

(** [arguments.get("sql", "").strip()].  The [arguments] of a tool call are
    a dict whose values are strings, as the tool's input schema declares. *)
Definition sql_of (arguments : gmap pystr pystr) : pystr :=
  PyStr.strip (default [] (arguments !! Lit.SQL)).

Definition handle_call_tool (name : pystr) (arguments : gmap pystr pystr)
    : M (list types.TextContent) :=
  if negb (PyStr.eqb name Lit.QUERY) then
    raise (ValueError (Lit.UNKNOWN_TOOL ++ name))
  else
    let sql := sql_of arguments in
    if PyStr.eqb sql [] then raise (ValueError Lit.EMPTY_QUERY)
    else
      let* r := asks rt in
      if negb (PyStr.startswith (PyStr.lower (unicode_lower r) sql) Lit.SELECT)
      then raise (ValueError Lit.NON_SELECT_QUERY)
      else guarded_query sql.

(** ** Reading a trace *)

(** The validation of [handle_call_tool] as one predicate on the raw
    [sql] argument: non-empty after [strip], and [select] first. *)
Definition accepted (r : PyRuntime) (raw : pystr) : bool :=
  negb (PyStr.eqb (PyStr.strip raw) [])
  && PyStr.startswith (PyStr.lower (unicode_lower r) (PyStr.strip raw)) Lit.SELECT.

Definition is_getconn (e : event) : bool :=
  match ev_call e with Getconn => true | _ => false end.

Definition is_putconn (e : event) : bool :=
  match ev_call e with Putconn _ => true | _ => false end.

Definition returned (e : event) : bool :=
  match ev_exn e with None => true | Some _ => false end.

(** Calls of [pool.getconn], those among them that handed out a
    connection, and calls of [pool.putconn]. *)
Definition acquire_calls (t : trace) : nat :=
  length (List.filter is_getconn t).

Definition acquired (t : trace) : nat :=
  length (List.filter (fun e => is_getconn e && returned e) t).

Definition release_calls (t : trace) : nat :=
  length (List.filter is_putconn t).

(** The statements sent through [cursor.execute], in order, each with
    whether it returned. *)
Fixpoint statements (t : trace) : list (pystr * bool) :=
  match t with
  | [] => []
  | e :: r =>
      match ev_call e with
      | Execute _ q _ => (q, returned e) :: statements r
      | _ => statements r
      end
  end.

(** The statements with the parameters bound to them. *)
Fixpoint executed (t : trace) : list (pystr * row) :=
  match t with
  | [] => []
  | e :: r =>
      match ev_call e with
      | Execute _ q ps => (q, ps) :: executed r
      | _ => executed r
      end
  end.

(** The last call that raised, with its exception. *)
Fixpoint last_failure (t : trace) : option (call * exn) :=
  match t with
  | [] => None
  | e :: r =>
      match last_failure r with
      | Some f => Some f
      | None =>
          match ev_exn e with
          | Some x => Some (ev_call e, x)
          | None => None
          end
      end
  end.

(** The statement a [fetchall] would answer: the last one executed. *)
Definition last_executed (t : trace) : option (pystr * row) :=
  last (executed t).

(** The calls that go to the pool rather than to a connection. *)
Definition pool_call (c : call) : bool :=
  match c with
  | Getconn | Putconn _ => true
  | _ => false
  end.

(** The statements sent through [cursor.execute], in order, each with its
    cursor, its bound parameters and whether it returned. *)
Fixpoint cursor_statements (t : trace) : list (cursor * pystr * row * bool) :=
  match t with
  | [] => []
  | e :: r =>
      match ev_call e with
      | Execute k q ps => (k, q, ps, returned e) :: cursor_statements r
      | _ => cursor_statements r
      end
  end.

(** The three ways the statements of one tool call can look: nothing was
    sent; [BEGIN TRANSACTION READ ONLY] was sent and raised; or it
    returned, and the caller's statement and [ROLLBACK] followed on the
    same cursor, none with parameters. *)
Inductive bracketed (k : cursor) (sql : pystr)
    : list (cursor * pystr * row * bool) -> Prop :=
| nothing_sent :
    bracketed k sql []
| begin_refused :
    bracketed k sql [(k, Lit.BEGIN_READ_ONLY, [], false)]
| rolled_back (ran undone : bool) :
    bracketed k sql
      [(k, Lit.BEGIN_READ_ONLY, [], true);
       (k, sql, [], ran);
       (k, Lit.ROLLBACK, [], undone)].

(** A computation that makes no call and binds no variable. *)
Definition silent {A} (m : M A) : Prop := forall env st, fst (m env st) = st.

(** An environment in which no call fails and the catalog knows the table
    [tbl]: the column query bound to [tbl] yields the rows [cols], the
    constraint query bound to [tbl] the rows [cons]. *)
Record serves_table (env : Env) (tbl : pystr) (cols cons : list row) : Prop := {
  serves_getconn : forall t, exists c, pool_getconn env t = Return c;
  serves_cursor : forall t c, exists k, conn_cursor env t c = Return k;
  serves_execute : forall t k q ps, cur_execute env t k q ps = Return tt;
  serves_columns : forall t k,
    last_executed t = Some (Lit.COLUMNS_SQL, [PyStr tbl]) ->
    cur_fetchall env t k = Return cols;
  serves_constraints : forall t k,
    last_executed t = Some (Lit.CONSTRAINTS_SQL, [PyStr tbl]) ->
    cur_fetchall env t k = Return cons;
  serves_exit : forall t k, cur_exit env t k = Return tt;
  serves_putconn : forall t c, pool_putconn env t c = Return tt
}.

(** The entry [handle_read_resource] builds for a catalog row
    [(name, type, is_nullable, description)]. *)
Definition column_dict (n ty nullable d : pyval) : pyval :=
  PyDict [(Lit.K_NAME, n);
          (Lit.K_TYPE, ty);
          (Lit.K_NULLABLE, PyBool (eq_str nullable Lit.YES));
          (Lit.K_DESCRIPTION, d)].

Definition constraint_dict (n kind : pyval) : pyval :=
  PyDict [(Lit.K_NAME, n); (Lit.K_TYPE, kind)].

(** Catalog rows as the two queries select them. *)
Definition column_row (c : pyval * pyval * pyval * pyval) : row :=
  let '(n, ty, nullable, d) := c in [n; ty; nullable; d].

Definition constraint_row (c : pyval * pyval) : row := [fst c; snd c].

(** The dictionary [handle_read_resource] renders for such rows. *)
Definition schema_document (cols : list (pyval * pyval * pyval * pyval))
    (cons : list (pyval * pyval)) : pyval :=
  PyDict [(Lit.K_COLUMNS,
           PyList (map (fun c => let '(n, ty, nullable, d) := c in
                                 column_dict n ty nullable d) cols));
          (Lit.K_CONSTRAINTS,
           PyList (map (fun c => constraint_dict (fst c) (snd c)) cons))].

(** ** Environments to run the handlers in *)

Module Sample.
Import PyStr.

Definition join (sep : pystr) (parts : list pystr) : pystr :=
  match parts with
  | [] => []
  | p :: r => p ++ flat_map (fun q => sep ++ q) r
  end.

(** [str(v)] as Python prints it when no string in [v] needs an escape or
    contains a quote. *)
Fixpoint repr (v : pyval) : pystr :=
  match v with
  | PyNone => py "None"
  | PyBool b => if b then py "True" else py "False"
  | PyInt z => py (DecimalString.NilZero.string_of_int (Z.to_int z))
  | PyStr s => py "'" ++ s ++ py "'"
  | PyList l => py "[" ++ join (py ", ") (map repr l) ++ py "]"
  | PyDict kv =>
      py "{"
      ++ join (py ", ")
           (map (fun p => py "'" ++ fst p ++ py "': " ++ repr (snd p)) kv)
      ++ py "}"
  end.

Definition runtime : PyRuntime :=
  {| unicode_lower := fun _ c _ => [c];
     py_str := fun v => match v with PyStr s => s | _ => repr v end |}.

(** A database that answers every call: [rows_for] gives the rows of a
    statement, [descr] the description of its result.  The resource
    constructor accepts every argument and keeps it as it is. *)
Definition healthy (rows_for : pystr -> row -> list row)
    (descr : list Column) : Env :=
  {| rt := runtime;
     host := py "localhost";
     new_resource := fun u n d m =>
       Return {| types.uri := u; types.name := n;
                 types.description := d; types.mimeType := m |};
     pool_getconn := fun _ => Return 1;
     conn_cursor := fun _ _ => Return 7;
     cur_execute := fun _ _ _ _ => Return tt;
     cur_fetchall := fun t _ =>
       match last_executed t with
       | Some (q, ps) => Return (rows_for q ps)
       | None => Raise (PsycopgError (py "no results to fetch"))
       end;
     cur_description := fun _ _ => Some descr;
     cur_exit := fun _ _ => Return tt;
     pool_putconn := fun _ _ => Return tt |}.

(** Fault injection: the call made after [n] earlier calls raises [e];
    everything else is answered by [base]. *)
Definition fail_at (n : nat) (e : exn) (base : Env) : Env :=
  let hit (t : trace) := (length t =? n)%nat in
  {| rt := rt base;
     host := host base;
     new_resource := new_resource base;
     pool_getconn := fun t => if hit t then Raise e else pool_getconn base t;
     conn_cursor := fun t c => if hit t then Raise e else conn_cursor base t c;
     cur_execute := fun t k q ps =>
       if hit t then Raise e else cur_execute base t k q ps;
     cur_fetchall := fun t k => if hit t then Raise e else cur_fetchall base t k;
     cur_description := cur_description base;
     cur_exit := fun t k => if hit t then Raise e else cur_exit base t k;
     pool_putconn := fun t c => if hit t then Raise e else pool_putconn base t c |}.

(** A database with one table [users (id integer not null, name text)]
    without constraints or comments. *)
Definition users_rows (q : pystr) (ps : row) : list row :=
  if eqb q Lit.COLUMNS_SQL then
    [[PyStr (py "id"); PyStr (py "integer"); PyStr (py "NO"); PyNone];
     [PyStr (py "name"); PyStr (py "text"); PyStr (py "YES"); PyNone]]
  else if eqb q Lit.CONSTRAINTS_SQL then []
  else if eqb q Lit.LIST_TABLES_SQL then [[PyStr (py "users"); PyNone]]
  else [[PyInt 1]].

Definition users_db : Env :=
  healthy users_rows [{| col_name := py "?column?"; col_type_code := 23 |}].

Definition pool_exhausted : exn :=
  PsycopgError (py "connection pool exhausted").

(** The same database with a resource constructor that refuses every
    argument. *)
Definition invalid_url : exn := ValueError (py "1 validation error for Resource").

Definition refusing_resources : Env :=
  {| rt := rt users_db;
     host := host users_db;
     new_resource := fun _ _ _ _ => Raise invalid_url;
     pool_getconn := pool_getconn users_db;
     conn_cursor := conn_cursor users_db;
     cur_execute := cur_execute users_db;
     cur_fetchall := cur_fetchall users_db;
     cur_description := cur_description users_db;
     cur_exit := cur_exit users_db;
     pool_putconn := pool_putconn users_db |}.

End Sample.

(** Inputs to run the handlers on. *)
Module Inputs.
Import PyStr.

Definition users_uri : pystr :=
  Eval vm_compute in py "postgres://localhost/users/schema".
Definition other_uri : pystr :=
  Eval vm_compute in py "mysql://elsewhere:3306/users/columns".
Definition bare_uri : pystr := Eval vm_compute in py "users".
Definition drop_table : pystr := Eval vm_compute in py "DROP TABLE users".
Definition with_query : pystr :=
  Eval vm_compute in py "WITH t AS (SELECT 1) SELECT * FROM t".
Definition select_one : pystr := Eval vm_compute in py " SeLeCt 1 ".
Definition select_commit_drop : pystr :=
  Eval vm_compute in py "select 1; commit; drop table users".
Definition SEMICOLON : N := 59.
Definition delete_all : pystr := Eval vm_compute in py "delete_all".
Definition blank : pystr := [32; 9; 10; 160; 12288].
Definition pool_closed : exn := PsycopgError (py "connection pool is closed").
Definition syntax_error : exn := PsycopgError (py "syntax error at end of input").

End Inputs.

(** ** Further readings of the handlers' input and output *)

(** A row of the table listing: the table name and its comment, [None]
    for SQL [NULL]. *)
Definition listing_row (t : pystr * option pystr) : row :=
  [PyStr (fst t);
   match snd t with
   | Some comment => PyStr comment
   | None => PyNone
   end].

(** An environment in which no call fails and the table listing yields
    the rows [tables]. *)
Record serves_listing (env : Env) (tables : list row) : Prop := {
  listing_getconn : forall t, exists c, pool_getconn env t = Return c;
  listing_cursor : forall t c, exists k, conn_cursor env t c = Return k;
  listing_execute : forall t k q ps, cur_execute env t k q ps = Return tt;
  listing_rows : forall t k,
    last_executed t = Some (Lit.LIST_TABLES_SQL, []) ->
    cur_fetchall env t k = Return tables;
  listing_exit : forall t k, cur_exit env t k = Return tt;
  listing_putconn : forall t c, pool_putconn env t c = Return tt
}.


(** What [handle_list_resources] gets from the resource constructor for a
    listing row: the constructor's answer to the URI
    [postgres://<host>/<name>/schema], the name [<name> schema], the
    comment ([None] when missing or empty) and the media type. *)
Definition descriptor (env : Env) (t : pystr * option pystr)
    : outcome types.Resource :=
  new_resource env
    (Lit.URI_SCHEME ++ host env ++ [Lit.SLASH] ++ fst t ++ Lit.URI_SUFFIX)
    (fst t ++ Lit.NAME_SUFFIX)
    match snd t with
    | Some comment => if PyStr.eqb comment [] then PyNone else PyStr comment
    | None => PyNone
    end
    Lit.MIME_JSON.

(** ** The course of a handler's calls *)

(** Where a handler stands with respect to the pool: it has no connection
    yet, [getconn] has refused one, it holds connection [c] with or without
    an open cursor, or it has given the connection back. *)
Inductive session :=
| Idle
| Refused
| Held (c : connection) (k : option cursor)
| Released.

(** The calls each state admits.  The connection and the cursor a state
    holds are the ones the environment handed out at that point of the
    trace. *)
Definition session_step (env : Env) (before : trace) (s : session) (e : event)
    : option session :=
  match s, ev_call e with
  | Idle, Log _ _ => Some Idle
  | Idle, Getconn =>
      match ev_exn e, pool_getconn env before with
      | None, Return c => Some (Held c None)
      | Some _, Raise _ => Some Refused
      | _, _ => None
      end
  | Refused, Log _ _ => Some Refused
  | Held c k, Log _ _ => Some (Held c k)
  | Held c None, Cursor c' =>
      if c' =? c then
        match ev_exn e, conn_cursor env before c with
        | None, Return k => Some (Held c (Some k))
        | Some _, Raise _ => Some (Held c None)
        | _, _ => None
        end
      else None
  | Held c (Some k), Execute k' _ _ => if k' =? k then Some s else None
  | Held c (Some k), Fetchall k' => if k' =? k then Some s else None
  | Held c (Some k), CursorExit k' => if k' =? k then Some (Held c None) else None
  | Held c None, Putconn c' => if c' =? c then Some Released else None
  | _, _ => None
  end.

Fixpoint session_run (env : Env) (before : trace) (s : session) (t : trace)
    : option session :=
  match t with
  | [] => Some s
  | e :: r =>
      match session_step env before s e with
      | Some s' => session_run env (before ++ [e]) s' r
      | None => None
      end
  end.

(** A trace is disciplined when every call is admitted and nothing is held
    at the end. *)
Definition disciplined (env : Env) (t : trace) : bool :=
  match session_run env [] Idle t with
  | Some (Held _ _) | None => false
  | Some _ => true
  end.

(** An environment in which no call fails and the statement [sql] yields
    the rows [results] with the description [ds]. *)
Record serves_query (env : Env) (sql : pystr) (results : list row)
    (ds : list Column) : Prop := {
  query_getconn : forall t, exists c, pool_getconn env t = Return c;
  query_cursor : forall t c, exists k, conn_cursor env t c = Return k;
  query_execute : forall t k q ps, cur_execute env t k q ps = Return tt;
  query_rows : forall t k,
    last_executed t = Some (sql, []) -> cur_fetchall env t k = Return results;
  query_description : forall t k, cur_description env t k = Some ds;
  query_exit : forall t k, cur_exit env t k = Return tt;
  query_putconn : forall t c, pool_putconn env t c = Return tt
}.

(** The value of the last pair with key [k]. *)
Fixpoint last_value (pairs : list (pystr * pyval)) (k : pystr) : option pyval :=
  match pairs with
  | [] => None
  | (k', v) :: r =>
      match last_value r k with
      | Some w => Some w
      | None => if PyStr.eqb k' k then Some v else None
      end
  end.

(** ** The tool list *)

(** [types.Tool], with the fields [handle_list_tools] sets. *)
Module Tool.

Record t := {
  name : pystr;
  description : pystr;
  inputSchema : pyval
}.

End Tool.

Definition QUERY_TOOL_DESCRIPTION : pystr :=
  Eval vm_compute in PyStr.py "执行只读SQL查询".

Definition QUERY_TOOL_SCHEMA : pyval :=
  Eval vm_compute in
    PyDict
      [(PyStr.py "type", PyStr (PyStr.py "object"));
       (PyStr.py "properties",
        PyDict
          [(PyStr.py "sql",
            PyDict
              [(PyStr.py "type", PyStr (PyStr.py "string"));
               (PyStr.py "description",
                PyStr (PyStr.py "SQL查询语句（仅支持SELECT）"))])]);
       (PyStr.py "required", PyList [PyStr (PyStr.py "sql")])].

Definition handle_list_tools : M (list Tool.t) :=
  ret [{| Tool.name := Lit.QUERY;
          Tool.description := QUERY_TOOL_DESCRIPTION;
          Tool.inputSchema := QUERY_TOOL_SCHEMA |}].

(** ** Start and stop: [PostgresServer.__init__], [cleanup] and [main] *)

Module Startup.

(** What can be in flight here: an exception as before, or one of the two
    that are not [Exception]s. *)
Inductive fault :=
| Exn (e : exn)
| KeyboardInterrupt
| SystemExit (code : Z).

Inductive result (A : Type) :=
| Done (a : A)
| Fault (f : fault).
Arguments Done {A} a.
Arguments Fault {A} f.

Definition faulted {A} (r : result A) : option fault :=
  match r with
  | Done _ => None
  | Fault f => Some f
  end.

Abbreviation config := N.
Abbreviation pool := N.

(** The calls of the start-up code.  [PostgresConfig] and [create_logger]
    live in modules of their own; their calls are answered by the world
    like those of the driver. *)
Inductive call :=
| PrintErr (msg : pystr)                 (* print(msg, file=sys.stderr) *)
| FromUrl (url : pystr) (local_host : option pystr)
                                         (* PostgresConfig.from_url(...) *)
| CreateLogger (name : pystr) (c : config)
                                         (* create_logger(name, c.debug) *)
| GetConnectionParams (c : config)       (* c.get_connection_params() *)
| Log (level msg : pystr)                (* self.log(level, msg) *)
| Connect (params : pyval)               (* psycopg2.connect( **params) *)
| Close (c : connection)                 (* test_conn.close() *)
| NewPool (minconn maxconn : Z) (params : pyval)
                                         (* SimpleConnectionPool(...) *)
| NewServer (name : pystr)               (* Server(name) *)
| SetupHandlers                          (* self._setup_handlers() *)
| Serve                                  (* await server.run() *)
| Closeall (p : pool).                   (* self.pool.closeall() *)

Record event := Ev { ev_call : call; ev_fault : option fault }.

Abbreviation trace := (list event).

Record World := {
  w_rt : PyRuntime;
  w_from_url : trace -> pystr -> option pystr -> result config;
  w_create_logger : trace -> pystr -> config -> result unit;
  w_get_connection_params : trace -> config -> result pyval;
  w_connect : trace -> pyval -> result connection;
  w_close : trace -> connection -> result unit;
  w_new_pool : trace -> Z -> Z -> pyval -> result pool;
  w_new_server : trace -> pystr -> result unit;
  w_setup_handlers : trace -> result unit;
  w_serve : trace -> result unit;
  w_closeall : trace -> pool -> result unit
}.

(** The server object: its [pool] attribute may be missing. *)
Record Server := { srv_pool : option pool }.

(** The calls made so far and [main]'s local variable [server]. *)
Record frame := Frame { calls : trace; server_var : option Server }.

Definition B (A : Type) : Type := World -> frame -> frame * result A.

Definition unit_ {A} (a : A) : B A := fun _ st => (st, Done a).

Definition throw {A} (f : fault) : B A := fun _ st => (st, Fault f).

Definition and_then {A C} (m : B A) (k : A -> B C) : B C :=
  fun w st =>
    match m w st with
    | (st1, Done a) => k a w st1
    | (st1, Fault f) => (st1, Fault f)
    end.

Declare Scope startup_scope.
Delimit Scope startup_scope with startup.
Notation "'let*' x := m 'in' k" := (and_then m (fun x => k))
  (at level 10, x name, m at level 100, k at level 200) : startup_scope.
Notation "m ;; k" := (and_then m (fun _ => k))
  (at level 100, k at level 200, right associativity) : startup_scope.
Local Open Scope startup_scope.

Definition does {A} (c : call) (answer : World -> trace -> result A) : B A :=
  fun w st =>
    let r := answer w (calls st) in
    (Frame (calls st ++ [Ev c (faulted r)]) (server_var st), r).

Definition finally_ {A} (body : B A) (fin : B unit) : B A :=
  fun w st =>
    match body w st with
    | (st1, r) =>
        match fin w st1 with
        | (st2, Done _) => (st2, r)
        | (st2, Fault f) => (st2, Fault f)
        end
    end.

Definition except_ {A} (body : B A) (catches : fault -> bool)
    (handler : fault -> B A) : B A :=
  fun w st =>
    match body w st with
    | (st1, Fault f) => if catches f then handler f w st1 else (st1, Fault f)
    | r => r
    end.

(** [isinstance(e, psycopg2.Error)] and [isinstance(e, KeyboardInterrupt)]. *)
Definition is_psycopg (f : fault) : bool :=
  match f with
  | Exn e => is_psycopg_error e
  | _ => false
  end.

Definition is_keyboard_interrupt (f : fault) : bool :=
  match f with
  | KeyboardInterrupt => true
  | _ => false
  end.

Definition fault_str (f : fault) : pystr :=
  match f with
  | Exn e => exn_str e
  | _ => []
  end.

Definition print_err (msg : pystr) : B unit :=
  does (PrintErr msg) (fun _ _ => Done tt).

Definition log (level msg : pystr) : B unit :=
  does (Log level msg) (fun _ _ => Done tt).

Definition from_url (url : pystr) (local_host : option pystr) : B config :=
  does (FromUrl url local_host) (fun w t => w_from_url w t url local_host).

Definition create_logger (name : pystr) (c : config) : B unit :=
  does (CreateLogger name c) (fun w t => w_create_logger w t name c).

Definition get_connection_params (c : config) : B pyval :=
  does (GetConnectionParams c) (fun w t => w_get_connection_params w t c).

Definition connect (params : pyval) : B connection :=
  does (Connect params) (fun w t => w_connect w t params).

Definition close (c : connection) : B unit :=
  does (Close c) (fun w t => w_close w t c).

Definition new_pool (lo hi : Z) (params : pyval) : B pool :=
  does (NewPool lo hi params) (fun w t => w_new_pool w t lo hi params).

Definition new_server (name : pystr) : B unit :=
  does (NewServer name) (fun w t => w_new_server w t name).

Definition setup_handlers : B unit :=
  does SetupHandlers (fun w t => w_setup_handlers w t).

Definition serve : B unit := does Serve (fun w t => w_serve w t).

Definition closeall (p : pool) : B unit :=
  does (Closeall p) (fun w t => w_closeall w t p).

Definition runtime : B PyRuntime := fun w st => (st, Done (w_rt w)).

Definition LOGGER : pystr := Eval vm_compute in PyStr.py "postgres".
Definition SERVER_NAME : pystr := Eval vm_compute in PyStr.py "postgres-server".
Definition CONNECTING : pystr := Eval vm_compute in PyStr.py "正在连接数据库，参数: ".
Definition PROBE_OK : pystr := Eval vm_compute in PyStr.py "测试连接成功".
Definition POOL_OK : pystr := Eval vm_compute in PyStr.py "数据库连接池创建成功".
Definition CONNECT_FAILED : pystr := Eval vm_compute in PyStr.py "数据库连接失败: ".
Definition CLOSING : pystr := Eval vm_compute in PyStr.py "关闭数据库连接池".
Definition USAGE : pystr :=
  Eval vm_compute in PyStr.py "用法: python -m mcp_postgres <database_url> [local_host]".
Definition STOPPED : pystr := Eval vm_compute in 10 :: PyStr.py "服务器已停止".

(** [PostgresServer.__init__]: the probe connection, then the pool, then
    the protocol server. *)
Definition init (cfg : config) : B Server :=
  create_logger LOGGER cfg ;;
  let* p :=
    except_
      (let* conn_params := get_connection_params cfg in
       let* r := runtime in
       log Lit.INFO (CONNECTING ++ py_format r conn_params) ;;
       let* test_conn := connect conn_params in
       close test_conn ;;
       log Lit.INFO PROBE_OK ;;
       let* p := new_pool 1 5 conn_params in
       log Lit.INFO POOL_OK ;;
       unit_ p)
      is_psycopg
      (fun e => log Lit.ERROR (CONNECT_FAILED ++ fault_str e) ;; throw e) in
  new_server SERVER_NAME ;;
  setup_handlers ;;
  unit_ {| srv_pool := Some p |}.

(** [PostgresServer.cleanup]. *)
Definition cleanup (s : Server) : B unit :=
  match srv_pool s with
  | Some p => log Lit.INFO CLOSING ;; closeall p
  | None => unit_ tt
  end.

(** [server = ...] and ['server' in locals()]. *)
Definition bind_server (s : Server) : B unit :=
  fun _ st => (Frame (calls st) (Some s), Done tt).

Definition server_in_locals : B (option Server) :=
  fun _ st => (st, Done (server_var st)).

(** The [try] statement of [main]. *)
Definition serve_until_stopped (database_url : pystr)
    (local_host : option pystr) : B unit :=
  finally_
    (except_
       (let* cfg := from_url database_url local_host in
        let* server := init cfg in
        bind_server server ;;
        serve)
       is_keyboard_interrupt
       (fun _ => print_err STOPPED))
    (let* s := server_in_locals in
     match s with
     | Some server => cleanup server
     | None => unit_ tt
     end).

(** [main], given [sys.argv]. *)
Definition main (argv : list pystr) : B unit :=
  if (length argv <? 2)%nat then
    print_err USAGE ;; throw (SystemExit 1)
  else
    match argv !! 1%nat with
    | None => throw (Exn IndexError)
    | Some database_url =>
        let local_host :=
          if (2 <? length argv)%nat then argv !! 2%nat else None in
        serve_until_stopped database_url local_host
    end.

Definition run {A} (m : B A) (w : World) : trace * result A :=
  match m w (Frame [] None) with
  | (st, r) => (calls st, r)
  end.

(** Reading a start-up trace. *)
Definition returned (e : event) : bool :=
  match ev_fault e with None => true | Some _ => false end.

Fixpoint last_failure (t : trace) : option (call * fault) :=
  match t with
  | [] => None
  | e :: r =>
      match last_failure r with
      | Some f => Some f
      | None =>
          match ev_fault e with
          | Some x => Some (ev_call e, x)
          | None => None
          end
      end
  end.

(** Pools that came into being, and [closeall] calls. *)
Definition pools_created (t : trace) : nat :=
  length (List.filter
            (fun e => match ev_call e with
                      | NewPool _ _ _ => returned e
                      | _ => false
                      end) t).

Definition closeall_calls (t : trace) : nat :=
  length (List.filter
            (fun e => match ev_call e with Closeall _ => true | _ => false end)
            t).

(** Whether the constructor ran to its end. *)
Definition constructed (t : trace) : bool :=
  existsb (fun e => match ev_call e with
                    | SetupHandlers => returned e
                    | _ => false
                    end) t.

(** The calls of the [try] block of [__init__]. *)
Definition in_probe (c : call) : bool :=
  match c with
  | GetConnectionParams _ | Connect _ | Close _ | NewPool _ _ _ => true
  | _ => false
  end.

(** A world in which every call succeeds. *)
Definition calm : World :=
  {| w_rt := Sample.runtime;
     w_from_url := fun _ _ _ => Done 1;
     w_create_logger := fun _ _ _ => Done tt;
     w_get_connection_params := fun _ _ =>
       Done (PyDict [(PyStr.py "host", PyStr (PyStr.py "localhost"))]);
     w_connect := fun _ _ => Done 3;
     w_close := fun _ _ => Done tt;
     w_new_pool := fun _ _ _ _ => Done 9;
     w_new_server := fun _ _ => Done tt;
     w_setup_handlers := fun _ => Done tt;
     w_serve := fun _ => Done tt;
     w_closeall := fun _ _ => Done tt |}.

(** Fault injection, as for the handlers. *)
Definition fail_at (n : nat) (f : fault) (base : World) : World :=
  let hit (t : trace) := (length t =? n)%nat in
  {| w_rt := w_rt base;
     w_from_url := fun t u h => if hit t then Fault f else w_from_url base t u h;
     w_create_logger := fun t n c =>
       if hit t then Fault f else w_create_logger base t n c;
     w_get_connection_params := fun t c =>
       if hit t then Fault f else w_get_connection_params base t c;
     w_connect := fun t p => if hit t then Fault f else w_connect base t p;
     w_close := fun t c => if hit t then Fault f else w_close base t c;
     w_new_pool := fun t lo hi p =>
       if hit t then Fault f else w_new_pool base t lo hi p;
     w_new_server := fun t n => if hit t then Fault f else w_new_server base t n;
     w_setup_handlers := fun t => if hit t then Fault f else w_setup_handlers base t;
     w_serve := fun t => if hit t then Fault f else w_serve base t;
     w_closeall := fun t p => if hit t then Fault f else w_closeall base t p |}.

End Startup.

(** * Properties *)

(** ** Strings *)

Lemma eqb_eq (a b : pystr) : PyStr.eqb a b = true <-> a = b.
Proof.
  revert b; induction a as [|x a IH]; intros [|y b]; simpl; try (split; congruence).
  rewrite andb_true_iff, N.eqb_eq, IH. split.
  - intros [-> ->]; reflexivity.
  - intros [= -> ->]; auto.
Qed.

Lemma eqb_refl (a : pystr) : PyStr.eqb a a = true.
Proof. apply eqb_eq; reflexivity. Qed.

Lemma eqb_neq (a b : pystr) : PyStr.eqb a b = false <-> a <> b.
Proof.
  rewrite <- eqb_eq. destruct (PyStr.eqb a b); split; congruence.
Qed.

Lemma lstrip_whitespace (s : pystr) :
  forallb PyStr.isspace s = true -> PyStr.lstrip s = [].
Proof.
  induction s as [|c s IH]; simpl; [reflexivity|].
  intros H; apply andb_true_iff in H as [Hc Hs].
  rewrite Hc; auto.
Qed.

Lemma strip_whitespace (s : pystr) :
  forallb PyStr.isspace s = true -> PyStr.strip s = [].
Proof.
  intros H. unfold PyStr.strip. rewrite lstrip_whitespace by assumption.
  reflexivity.
Qed.


Lemma split_single (sep : N) (s : pystr) :
  ~ In sep s -> PyStr.split sep s = [s].
Proof.
  induction s as [|c s IH]; simpl; intros H; [reflexivity|].
  destruct (N.eqb_spec c sep) as [->|Hne]; [exfalso; auto|].
  rewrite IH by tauto. reflexivity.
Qed.

Lemma split_length (sep : N) (s : pystr) :
  length (PyStr.split sep s) = S (length (List.filter (N.eqb sep) s)).
Proof.
  induction s as [|c s IH]; simpl; [reflexivity|].
  rewrite (N.eqb_sym sep c).
  destruct (c =? sep); simpl; [congruence|].
  destruct (PyStr.split sep s) eqn:E; simpl in *; [discriminate | assumption].
Qed.

(** [l[-2]] of a list that ends with [t; z] is [t]. *)
Lemma index_from_end_2 {A} (pre : list A) (t z : A) :
  index_from_end (pre ++ [t; z]) 2 = Some t.
Proof.
  unfold index_from_end. rewrite length_app. simpl.
  destruct (Nat.ltb_spec (length pre + 2) 2); [lia|].
  replace (length pre + 2 - 2)%nat with (length pre + 0)%nat by lia.
  rewrite lookup_app_r by lia.
  replace (length pre + 0 - length pre)%nat with 0%nat by lia. reflexivity.
Qed.

Lemma index_from_end_short {A} (l : list A) :
  (length l < 2)%nat -> index_from_end l 2 = None.
Proof.
  intros H. unfold index_from_end.
  destruct (Nat.ltb_spec (length l) 2); [reflexivity | lia].
Qed.

Lemma index_from_end_some {A} (l : list A) :
  (2 <= length l)%nat -> exists t, index_from_end l 2 = Some t.
Proof.
  intros H. unfold index_from_end.
  destruct (Nat.ltb_spec (length l) 2); [lia|].
  destruct (l !! (length l - 2)%nat) eqn:E; [eauto|].
  apply lookup_ge_None in E. lia.
Qed.


(** ** The validation in front of [handle_call_tool] *)

Lemma call_tool_unknown (env : Env) (name : pystr) (arguments : gmap pystr pystr) :
  PyStr.eqb name Lit.QUERY = false ->
  run (handle_call_tool name arguments) env
  = ([], Raise (ValueError (Lit.UNKNOWN_TOOL ++ name))).
Proof.
  intros H. unfold run, handle_call_tool. rewrite H. reflexivity.
Qed.

Lemma call_tool_empty (env : Env) (arguments : gmap pystr pystr) :
  sql_of arguments = [] ->
  run (handle_call_tool Lit.QUERY arguments) env
  = ([], Raise (ValueError Lit.EMPTY_QUERY)).
Proof.
  intros H. unfold run, handle_call_tool.
  rewrite eqb_refl, H. reflexivity.
Qed.

Lemma call_tool_non_select (env : Env) (arguments : gmap pystr pystr) :
  sql_of arguments <> [] ->
  PyStr.startswith (PyStr.lower (unicode_lower (rt env)) (sql_of arguments))
    Lit.SELECT = false ->
  run (handle_call_tool Lit.QUERY arguments) env
  = ([], Raise (ValueError Lit.NON_SELECT_QUERY)).
Proof.
  intros Hne Hsel. apply eqb_neq in Hne.
  unfold run, handle_call_tool. rewrite eqb_refl, Hne.
  unfold bind, asks. cbn [negb]. cbv beta iota zeta. rewrite Hsel. reflexivity.
Qed.

Lemma call_tool_accepted (env : Env) (arguments : gmap pystr pystr) :
  accepted (rt env) (default [] (arguments !! Lit.SQL)) = true ->
  forall st,
    handle_call_tool Lit.QUERY arguments env st
    = guarded_query (sql_of arguments) env st.
Proof.
  unfold accepted. fold (sql_of arguments). intros H st.
  apply andb_true_iff in H as [Hne Hsel]. apply negb_true_iff in Hne.
  unfold handle_call_tool. rewrite eqb_refl, Hne.
  unfold bind at 1. unfold asks at 1. cbn [negb]. cbv beta iota zeta.
  rewrite Hsel. reflexivity.
Qed.

(** ** Running a handler symbolically *)

Lemma silent_ret {A} (a : A) : silent (ret a).
Proof. intros env st; reflexivity. Qed.

Lemma silent_raise {A} (e : exn) : silent (@raise A e).
Proof. intros env st; reflexivity. Qed.

Lemma silent_asks {A} (f : Env -> A) : silent (asks f).
Proof. intros env st; reflexivity. Qed.

Lemma silent_bind {A B} (m : M A) (f : A -> M B) :
  silent m -> (forall a, silent (f a)) -> silent (bind m f).
Proof.
  intros Hm Hf env st. unfold bind.
  specialize (Hm env st). destruct (m env st) as [st1 [a|e]]; simpl in *; subst.
  - apply Hf.
  - reflexivity.
Qed.

Lemma silent_item (t : row) (i : nat) : silent (item t i).
Proof. unfold item. destruct (t !! i); [apply silent_ret | apply silent_raise]. Qed.

Lemma silent_Resource (u n : pystr) (d : pyval) (m : pystr) :
  silent (Resource u n d m).
Proof. intros env st; reflexivity. Qed.

Create HintDb silent.
#[local] Hint Resolve silent_ret silent_raise silent_asks silent_item
  silent_Resource : silent.
#[local] Hint Extern 2 (silent (bind _ _)) =>
  apply silent_bind; [|intros ?] : silent.

Lemma silent_comprehension {A B} (f : A -> M B) (l : list A) :
  (forall x, silent (f x)) -> silent (comprehension f l).
Proof.
  intros Hf. induction l as [|x l IH]; simpl; auto 10 with silent.
Qed.

Lemma silent_resource_of_table (table : row) : silent (resource_of_table table).
Proof. unfold resource_of_table. auto 10 with silent. Qed.

Lemma silent_column_entry (col : row) : silent (column_entry col).
Proof. unfold column_entry. auto 10 with silent. Qed.

Lemma silent_constraint_entry (con : row) : silent (constraint_entry con).
Proof. unfold constraint_entry. auto 10 with silent. Qed.

#[local] Hint Resolve silent_resource_of_table silent_column_entry
  silent_constraint_entry : silent.

(** One step of a run: ask the environment for the answer to the next
    call and follow both branches; a comprehension leaves the frame as it
    found it. *)
Ltac answer :=
  match goal with
  | |- context [comprehension ?f ?l ?env ?st] =>
      let H := fresh "H" in
      pose proof (silent_comprehension f l ltac:(auto with silent) env st) as H;
      destruct (comprehension f l env st) as [? [?|?]]; simpl in H; subst
  | |- context [pool_getconn ?env ?t] =>
      destruct (pool_getconn env t) as [?|?] eqn:?
  | |- context [conn_cursor ?env ?t ?c] =>
      destruct (conn_cursor env t c) as [?|?] eqn:?
  | |- context [cur_execute ?env ?t ?k ?q ?ps] =>
      destruct (cur_execute env t k q ps) as [[]|?] eqn:?
  | |- context [cur_fetchall ?env ?t ?k] =>
      destruct (cur_fetchall env t k) as [?|?] eqn:?
  | |- context [cur_exit ?env ?t ?k] =>
      destruct (cur_exit env t k) as [[]|?] eqn:?
  | |- context [pool_putconn ?env ?t ?c] =>
      destruct (pool_putconn env t c) as [[]|?] eqn:?
  | |- context [cur_description ?env ?t ?k] =>
      destruct (cur_description env t k) as [?|] eqn:?
  | |- context [is_psycopg_error ?e] =>
      is_var e; destruct e
  end.

Ltac start :=
  cbv [run handle_list_resources handle_read_resource guarded_query
       execute_read_only with_cursor release
       getconn putconn open_cursor execute fetchall cursor_exit log
       cursor_description bind_conn read_conn
       perform try_finally try_except bind ret raise asks];
  cbn [calls conn_var raised app fst snd].

Ltac exec :=
  start;
  repeat (answer; cbn [calls conn_var raised app fst snd is_psycopg_error]).

(** The validation either rejects the call before anything is done, or
    hands over to [guarded_query]. *)
Lemma call_tool_cases (env : Env) (name : pystr) (arguments : gmap pystr pystr) :
  (exists msg, run (handle_call_tool name arguments) env
               = ([], Raise (ValueError msg)))
  \/ (name = Lit.QUERY
      /\ accepted (rt env) (default [] (arguments !! Lit.SQL)) = true
      /\ run (handle_call_tool name arguments) env
         = run (guarded_query (sql_of arguments)) env).
Proof.
  destruct (PyStr.eqb name Lit.QUERY) eqn:Hname.
  - apply eqb_eq in Hname; subst name.
    destruct (accepted (rt env) (default [] (arguments !! Lit.SQL))) eqn:Hacc.
    + right. repeat split. unfold run. rewrite call_tool_accepted by assumption.
      reflexivity.
    + left. unfold accepted in Hacc. fold (sql_of arguments) in Hacc.
      destruct (PyStr.eqb (sql_of arguments) []) eqn:Hempty.
      * apply eqb_eq in Hempty. eexists. apply call_tool_empty; assumption.
      * apply eqb_neq in Hempty. eexists.
        apply call_tool_non_select; assumption.
  - left. eexists. apply call_tool_unknown; assumption.
Qed.

(** ** Acquire and release *)

Lemma list_resources_paired (env : Env) :
  let t := fst (run handle_list_resources env) in
  acquired t = release_calls t /\ (acquire_calls t <= 1)%nat.
Proof. exec; split; (reflexivity || (cbv; lia)). Qed.

Lemma read_resource_paired (env : Env) (uri : pystr) :
  let t := fst (run (handle_read_resource uri) env) in
  acquired t = release_calls t /\ (acquire_calls t <= 1)%nat.
Proof.
  start. destruct (table_name_of uri); cbn [calls conn_var raised app fst snd].
  - repeat (answer; cbn [calls conn_var raised app fst snd is_psycopg_error]);
      split; (reflexivity || (cbv; lia)).
  - split; (reflexivity || (cbv; lia)).
Qed.

Lemma guarded_query_paired (env : Env) (sql : pystr) :
  let t := fst (run (guarded_query sql) env) in
  acquired t = release_calls t /\ (acquire_calls t <= 1)%nat.
Proof. exec; split; (reflexivity || (cbv; lia)). Qed.

Lemma call_tool_paired (env : Env) (name : pystr) (arguments : gmap pystr pystr) :
  let t := fst (run (handle_call_tool name arguments) env) in
  acquired t = release_calls t /\ (acquire_calls t <= 1)%nat.
Proof.
  destruct (call_tool_cases env name arguments) as [[msg E]|(_ & _ & E)];
    rewrite E.
  - split; (reflexivity || (cbv; lia)).
  - apply guarded_query_paired.
Qed.

(** ** The read-only transaction *)

Lemma guarded_query_bracketed (env : Env) (sql : pystr) :
  exists k,
    bracketed k sql (cursor_statements (fst (run (guarded_query sql) env))).
Proof.
  exec; cbn [cursor_statements ev_call returned ev_exn];
    first [ exists 0; constructor | eexists; constructor ].
Qed.

(** ** Driver errors *)

Lemma guarded_query_catches (env : Env) (sql : pystr) (c : call) (m : pystr) :
  last_failure (fst (run (guarded_query sql) env)) = Some (c, PsycopgError m) ->
  pool_call c = false ->
  snd (run (guarded_query sql) env)
  = Return [{| types.type := Lit.TEXT; types.text := Lit.QUERY_FAILED ++ m |}].
Proof.
  exec; cbn [last_failure ev_exn ev_call]; intros H Hc;
    first [ discriminate H
          | inversion H; subst; first [discriminate Hc | reflexivity] ].
Qed.

Lemma guarded_query_release_error (env : Env) (sql : pystr)
    (c : connection) (e : exn) :
  last_failure (fst (run (guarded_query sql) env)) = Some (Putconn c, e) ->
  snd (run (guarded_query sql) env) = Raise e.
Proof.
  exec; cbn [last_failure ev_exn ev_call]; intros H;
    first [ discriminate H | inversion H; subst; reflexivity ].
Qed.

Lemma list_resources_propagates (env : Env) (c : call) (e : exn) :
  last_failure (fst (run handle_list_resources env)) = Some (c, e) ->
  c <> Getconn ->
  snd (run handle_list_resources env) = Raise e.
Proof.
  exec; cbn [last_failure ev_exn ev_call]; intros H Hc;
    first [ discriminate H
          | inversion H; subst; first [contradiction | reflexivity] ].
Qed.

Lemma read_resource_propagates (env : Env) (uri : pystr) (c : call) (e : exn) :
  last_failure (fst (run (handle_read_resource uri) env)) = Some (c, e) ->
  c <> Getconn ->
  snd (run (handle_read_resource uri) env) = Raise e.
Proof.
  start. destruct (table_name_of uri); cbn [calls conn_var raised app fst snd];
    repeat (answer; cbn [calls conn_var raised app fst snd is_psycopg_error]);
    cbn [last_failure ev_exn ev_call]; intros H Hc;
    first [ discriminate H
          | inversion H; subst; first [contradiction | reflexivity] ].
Qed.

(** ** The schema document *)

Lemma comprehension_column_rows (cols : list (pyval * pyval * pyval * pyval))
    (env : Env) (st : frame) :
  comprehension column_entry (map column_row cols) env st
  = (st, Return (map (fun c => let '(n, ty, nullable, d) := c in
                               column_dict n ty nullable d) cols)).
Proof.
  induction cols as [|[[[n ty] nl] d] cols IH]; [reflexivity|].
  cbn [map comprehension]. unfold bind, ret.
  change (column_entry (column_row (n, ty, nl, d)) env st)
    with (st, Return (column_dict n ty nl d)).
  cbv beta iota. rewrite IH. reflexivity.
Qed.

Lemma comprehension_constraint_rows (cons : list (pyval * pyval))
    (env : Env) (st : frame) :
  comprehension constraint_entry (map constraint_row cons) env st
  = (st, Return (map (fun c => constraint_dict (fst c) (snd c)) cons)).
Proof.
  induction cons as [|[n k] cons IH]; [reflexivity|].
  cbn [map comprehension]. unfold bind, ret.
  change (constraint_entry (constraint_row (n, k)) env st)
    with (st, Return (constraint_dict n k)).
  cbv beta iota. rewrite IH. reflexivity.
Qed.

Lemma read_resource_schema (env : Env) (uri tbl : pystr)
    (cols : list (pyval * pyval * pyval * pyval)) (cons : list (pyval * pyval)) :
  table_name_of uri = Some tbl ->
  serves_table env tbl (map column_row cols) (map constraint_row cons) ->
  snd (run (handle_read_resource uri) env)
  = Return (py_str (rt env) (schema_document cols cons)).
Proof.
  intros Ht [Hg Hc He Hcols Hcons Hx Hp].
  start. rewrite Ht. cbn [calls conn_var raised app fst snd].
  match goal with |- context [pool_getconn env ?t] =>
    destruct (Hg t) as [c Ec]; rewrite Ec end.
  cbn [calls conn_var raised app fst snd].
  match goal with |- context [conn_cursor env ?t ?c] =>
    destruct (Hc t c) as [k Ek]; rewrite Ek end.
  cbn [calls conn_var raised app fst snd].
  rewrite !He. cbn [calls conn_var raised app fst snd].
  match goal with |- context [cur_fetchall env ?t ?k] =>
    rewrite (Hcols t k) by reflexivity end.
  cbn [calls conn_var raised app fst snd]. rewrite ?He.
  cbn [calls conn_var raised app fst snd].
  match goal with |- context [cur_fetchall env ?t ?k] =>
    rewrite (Hcons t k) by reflexivity end.
  cbn [calls conn_var raised app fst snd].
  rewrite comprehension_column_rows, comprehension_constraint_rows.
  rewrite Hx. cbn [calls conn_var raised app fst snd].
  rewrite Hp. reflexivity.
Qed.

(** ** The table name *)

Lemma table_name_second_to_last (uri : pystr) (pre : list pystr) (t z : pystr) :
  PyStr.split Lit.SLASH uri = pre ++ [t; z] -> table_name_of uri = Some t.
Proof. intros H. unfold table_name_of. rewrite H. apply index_from_end_2. Qed.

Lemma table_name_missing (uri : pystr) :
  ~ In Lit.SLASH uri -> table_name_of uri = None.
Proof.
  intros H. unfold table_name_of. rewrite split_single by assumption.
  reflexivity.
Qed.

Lemma read_resource_short_uri (env : Env) (uri : pystr) :
  table_name_of uri = None ->
  run (handle_read_resource uri) env
  = ([], Raise (UnboundLocalError (PyStr.py "conn"))).
Proof. intros H. start. rewrite H. reflexivity. Qed.

(** A URI without [/] is a single segment, and every such URI ends the
    same way. *)
Lemma read_resource_without_slash (env : Env) (uri : pystr) :
  ~ In Lit.SLASH uri ->
  length (PyStr.split Lit.SLASH uri) = 1%nat
  /\ run (handle_read_resource uri) env
     = ([], Raise (UnboundLocalError (PyStr.py "conn"))).
Proof.
  intros H. split.
  - rewrite split_single by assumption. reflexivity.
  - apply read_resource_short_uri, table_name_missing. assumption.
Qed.

Lemma read_resource_same_table (env : Env) (u1 u2 : pystr) :
  table_name_of u1 = table_name_of u2 ->
  run (handle_read_resource u1) env = run (handle_read_resource u2) env.
Proof. intros H. unfold run, handle_read_resource. rewrite H. reflexivity. Qed.

Lemma read_resource_executed (env : Env) (uri tbl : pystr) :
  table_name_of uri = Some tbl ->
  Forall (fun s => (fst s = Lit.COLUMNS_SQL \/ fst s = Lit.CONSTRAINTS_SQL)
                   /\ snd s = [PyStr tbl])
    (executed (fst (run (handle_read_resource uri) env))).
Proof.
  intros Ht. start. rewrite Ht. cbn [calls conn_var raised app fst snd].
  repeat (answer; cbn [calls conn_var raised app fst snd is_psycopg_error]);
    cbn [executed ev_call];
    repeat (apply List.Forall_cons;
            [split; [first [left; reflexivity | right; reflexivity]
                    | reflexivity] |]);
    apply List.Forall_nil.
Qed.

(** * The claims *)

(** C1, where the code departs from it.  The validation accepts the text
    [select 1; commit; drop table users] under every runtime: it starts
    with [select].  The handler hands the whole text to one [execute]
    call, as it is written, between its [BEGIN TRANSACTION READ ONLY] and
    its [ROLLBACK]; split at the semicolons, the text is a select, a
    commit and a drop.  So the handler does send a [commit] to the
    database, ahead of the statement that writes and ahead of its own
    [ROLLBACK]. *)
Theorem embedded_commit_is_sent_as_written (env : Env) :
  let arguments : gmap pystr pystr := {[ Lit.SQL := Inputs.select_commit_drop ]} in
  accepted (rt env) (default [] (arguments !! Lit.SQL)) = true
  /\ PyStr.split Inputs.SEMICOLON (sql_of arguments)
     = [PyStr.py "select 1"; PyStr.py " commit"; PyStr.py " drop table users"]
  /\ map ev_call
       (fst (run (handle_call_tool Lit.QUERY arguments) Sample.users_db))
     = [Log Lit.INFO (Lit.RUNNING_QUERY ++ Inputs.select_commit_drop);
        Getconn;
        Cursor 1;
        Execute 7 Lit.BEGIN_READ_ONLY [];
        Execute 7 Inputs.select_commit_drop [];
        Fetchall 7;
        Log Lit.INFO (Lit.QUERY_DONE_1 ++ PyStr.py "1" ++ Lit.QUERY_DONE_2);
        Execute 7 Lit.ROLLBACK [];
        CursorExit 7;
        Putconn 1]
  /\ last_failure
       (fst (run (handle_call_tool Lit.QUERY arguments) Sample.users_db))
     = None.
Proof.
  intros arguments. repeat split; vm_compute; reflexivity.
Qed.

(** C2, as stated, fails where [getconn] itself raises: [getconn] has been
    called once, and the cleanup stops at the unbound [conn] before it
    calls [putconn]. *)
Lemma failed_acquire_is_not_released :
  let t := fst (run handle_list_resources
                  (Sample.fail_at 0 Sample.pool_exhausted Sample.users_db)) in
  t = [Ev Getconn (Some Sample.pool_exhausted);
       Ev (Log Lit.ERROR (Lit.LIST_FAILED ++ exn_str Sample.pool_exhausted))
          None]
  /\ acquire_calls t <> release_calls t.
Proof. split; [vm_compute; reflexivity | vm_compute; discriminate]. Qed.

(** C2, amended.  In every run of [handle_list_resources],
    [handle_read_resource] and [handle_call_tool], whatever the
    environment answers, the [getconn] calls that returned a connection
    are as many as the [putconn] calls, and [getconn] is called at most
    once. *)
Theorem acquired_connections_are_released (env : Env) :
  (let t := fst (run handle_list_resources env) in
   acquired t = release_calls t /\ (acquire_calls t <= 1)%nat)
  /\ (forall uri,
        let t := fst (run (handle_read_resource uri) env) in
        acquired t = release_calls t /\ (acquire_calls t <= 1)%nat)
  /\ (forall name arguments,
        let t := fst (run (handle_call_tool name arguments) env) in
        acquired t = release_calls t /\ (acquire_calls t <= 1)%nat).
Proof.
  split; [apply list_resources_paired|].
  split; [apply read_resource_paired | apply call_tool_paired].
Qed.

(** C3, as stated, fails: for [DROP TABLE users] the handler does not
    return a response, it raises. *)
Lemma drop_table_is_raised_not_returned :
  ~ exists response,
      snd (run (handle_call_tool Lit.QUERY {[ Lit.SQL := Inputs.drop_table ]})
             Sample.users_db)
      = Return response.
Proof. intros [response H]. vm_compute in H. discriminate. Qed.

(** C3, amended.  The query tool called with [DROP TABLE users] raises the
    [ValueError] that says only SELECT is supported, having made no call to
    the pool or the database; a tool name other than [query] raises the
    [ValueError] that names the unknown tool, again without any call. *)
Theorem rejections_are_raised (env : Env) (arguments : gmap pystr pystr) :
  (arguments !! Lit.SQL = Some Inputs.drop_table ->
   run (handle_call_tool Lit.QUERY arguments) env
   = ([], Raise (ValueError Lit.NON_SELECT_QUERY)))
  /\ (forall name,
        name <> Lit.QUERY ->
        run (handle_call_tool name arguments) env
        = ([], Raise (ValueError (Lit.UNKNOWN_TOOL ++ name)))).
Proof.
  split.
  - intros H. apply call_tool_non_select; unfold sql_of; rewrite H.
    + vm_compute. discriminate.
    + reflexivity.
  - intros name H. apply call_tool_unknown. apply eqb_neq. assumption.
Qed.

Lemma rejections_are_raised_witness :
  let arguments : gmap pystr pystr := {[ Lit.SQL := Inputs.drop_table ]} in
  arguments !! Lit.SQL = Some Inputs.drop_table
  /\ Inputs.delete_all <> Lit.QUERY
  /\ run (handle_call_tool Lit.QUERY arguments) Sample.users_db
     = ([], Raise (ValueError Lit.NON_SELECT_QUERY))
  /\ run (handle_call_tool Inputs.delete_all arguments) Sample.users_db
     = ([], Raise (ValueError (Lit.UNKNOWN_TOOL ++ Inputs.delete_all))).
Proof.
  intros arguments.
  assert (H1 : arguments !! Lit.SQL = Some Inputs.drop_table)
    by (vm_compute; reflexivity).
  assert (H2 : Inputs.delete_all <> Lit.QUERY) by discriminate.
  split; [exact H1|]. split; [exact H2|].
  split.
  - exact (proj1 (rejections_are_raised Sample.users_db arguments) H1).
  - exact (proj2 (rejections_are_raised Sample.users_db arguments) _ H2).
Defined.

(** C4.  When the [sql] argument is empty or consists of whitespace only,
    the query tool raises the empty-query [ValueError] and has made no
    call: in particular no [getconn]. *)
Theorem blank_sql_is_rejected_before_acquire
    (env : Env) (arguments : gmap pystr pystr) (raw : pystr) :
  arguments !! Lit.SQL = Some raw ->
  forallb PyStr.isspace raw = true ->
  run (handle_call_tool Lit.QUERY arguments) env
  = ([], Raise (ValueError Lit.EMPTY_QUERY)).
Proof.
  intros Hraw Hblank. apply call_tool_empty.
  unfold sql_of. rewrite Hraw. apply strip_whitespace. assumption.
Qed.

Lemma blank_sql_is_rejected_before_acquire_witness :
  let arguments : gmap pystr pystr := {[ Lit.SQL := Inputs.blank ]} in
  arguments !! Lit.SQL = Some Inputs.blank
  /\ forallb PyStr.isspace Inputs.blank = true
  /\ run (handle_call_tool Lit.QUERY arguments) Sample.users_db
     = ([], Raise (ValueError Lit.EMPTY_QUERY)).
Proof.
  intros arguments.
  assert (H1 : arguments !! Lit.SQL = Some Inputs.blank)
    by (vm_compute; reflexivity).
  assert (H2 : forallb PyStr.isspace Inputs.blank = true) by reflexivity.
  split; [exact H1|]. split; [exact H2|].
  exact (blank_sql_is_rejected_before_acquire
           Sample.users_db arguments Inputs.blank H1 H2).
Defined.

(** C5, as stated, fails on the empty string: it does not start with
    [select], yet the error is the empty-query one. *)
Lemma empty_sql_is_not_a_non_select_error :
  let arguments : gmap pystr pystr := {[ Lit.SQL := [] ]} in
  PyStr.startswith
    (PyStr.lower (unicode_lower Sample.runtime) (sql_of arguments))
    Lit.SELECT = false
  /\ run (handle_call_tool Lit.QUERY arguments) Sample.users_db
     = ([], Raise (ValueError Lit.EMPTY_QUERY))
  /\ snd (run (handle_call_tool Lit.QUERY arguments) Sample.users_db)
     <> Raise (ValueError Lit.NON_SELECT_QUERY).
Proof.
  intros arguments. split; [reflexivity|]. split; [reflexivity|].
  vm_compute. discriminate.
Qed.

(** C5, amended.  When the [sql] argument is not empty after trimming and
    its lowercase form does not start with [select], the query tool raises
    the only-SELECT [ValueError] and has made no call: in particular no
    [getconn]. *)
Theorem non_select_sql_is_rejected_before_acquire
    (env : Env) (arguments : gmap pystr pystr) :
  sql_of arguments <> [] ->
  PyStr.startswith
    (PyStr.lower (unicode_lower (rt env)) (sql_of arguments))
    Lit.SELECT = false ->
  run (handle_call_tool Lit.QUERY arguments) env
  = ([], Raise (ValueError Lit.NON_SELECT_QUERY)).
Proof. apply call_tool_non_select. Qed.

Lemma non_select_sql_is_rejected_before_acquire_witness :
  let arguments : gmap pystr pystr := {[ Lit.SQL := Inputs.with_query ]} in
  sql_of arguments <> []
  /\ PyStr.startswith
       (PyStr.lower (unicode_lower (rt Sample.users_db)) (sql_of arguments))
       Lit.SELECT = false
  /\ run (handle_call_tool Lit.QUERY arguments) Sample.users_db
     = ([], Raise (ValueError Lit.NON_SELECT_QUERY)).
Proof.
  intros arguments.
  assert (H1 : sql_of arguments <> []) by (vm_compute; discriminate).
  assert (H2 : PyStr.startswith
                 (PyStr.lower (unicode_lower (rt Sample.users_db))
                    (sql_of arguments))
                 Lit.SELECT = false) by (vm_compute; reflexivity).
  split; [exact H1|]. split; [exact H2|].
  exact (non_select_sql_is_rejected_before_acquire
           Sample.users_db arguments H1 H2).
Defined.

(** C6, where the code departs from it.  A URI without any [/] has a
    single segment; [uri.split('/')[-2]] raises [IndexError], but the
    cleanup then reads the unbound [conn], and what the caller gets is
    [UnboundLocalError] instead of an error about the URI. *)
Theorem short_uri_ends_in_unbound_conn (env : Env) :
  table_name_of Inputs.bare_uri = None
  /\ run (handle_read_resource Inputs.bare_uri) env
     = ([], Raise (UnboundLocalError (PyStr.py "conn"))).
Proof.
  split; [reflexivity|]. apply read_resource_short_uri. reflexivity.
Qed.

(** C7, as stated, fails for a driver error raised by [putconn]: the
    release runs in the [finally] clause, outside the [except], so the
    error reaches the caller although the query itself went through. *)
Lemma release_error_reaches_the_caller :
  let arguments : gmap pystr pystr := {[ Lit.SQL := Inputs.select_one ]} in
  let env := Sample.fail_at 9 Inputs.pool_closed Sample.users_db in
  accepted (rt env) (default [] (arguments !! Lit.SQL)) = true
  /\ last_failure (fst (run (handle_call_tool Lit.QUERY arguments) env))
     = Some (Putconn 1, Inputs.pool_closed)
  /\ snd (run (handle_call_tool Lit.QUERY arguments) env)
     = Raise Inputs.pool_closed.
Proof. repeat split; vm_compute; reflexivity. Qed.

(** C7, amended.  In the query tool, after validation: when the last call
    to fail is a connection or cursor call (creating the cursor, [BEGIN],
    the statement, [fetchall], [ROLLBACK], closing the cursor) and it
    raised a psycopg2 error, the handler returns one text content holding
    the failure prefix followed by the error's message; when the last call
    to fail is [putconn], its exception reaches the caller.  In
    [handle_list_resources] and [handle_read_resource], the exception of
    the last call to fail, if that call is not [getconn], reaches the
    caller. *)
Theorem driver_errors_caught_or_propagated (env : Env) :
  (forall arguments c m,
     accepted (rt env) (default [] (arguments !! Lit.SQL)) = true ->
     last_failure (fst (run (handle_call_tool Lit.QUERY arguments) env))
     = Some (c, PsycopgError m) ->
     pool_call c = false ->
     snd (run (handle_call_tool Lit.QUERY arguments) env)
     = Return [{| types.type := Lit.TEXT;
                  types.text := Lit.QUERY_FAILED ++ m |}])
  /\ (forall arguments c e,
        accepted (rt env) (default [] (arguments !! Lit.SQL)) = true ->
        last_failure (fst (run (handle_call_tool Lit.QUERY arguments) env))
        = Some (Putconn c, e) ->
        snd (run (handle_call_tool Lit.QUERY arguments) env) = Raise e)
  /\ (forall c e,
        last_failure (fst (run handle_list_resources env)) = Some (c, e) ->
        c <> Getconn ->
        snd (run handle_list_resources env) = Raise e)
  /\ (forall uri c e,
        last_failure (fst (run (handle_read_resource uri) env)) = Some (c, e) ->
        c <> Getconn ->
        snd (run (handle_read_resource uri) env) = Raise e).
Proof.
  repeat split.
  - intros arguments c m Hacc. unfold run.
    rewrite call_tool_accepted by assumption.
    apply (guarded_query_catches env (sql_of arguments) c m).
  - intros arguments c e Hacc. unfold run.
    rewrite call_tool_accepted by assumption.
    apply (guarded_query_release_error env (sql_of arguments) c e).
  - apply list_resources_propagates.
  - intros uri. apply read_resource_propagates.
Qed.

Lemma driver_errors_caught_or_propagated_witness :
  let arguments : gmap pystr pystr := {[ Lit.SQL := Inputs.select_one ]} in
  let failing n := Sample.fail_at n Inputs.syntax_error Sample.users_db in
  let closed := Sample.fail_at 9 Inputs.pool_closed Sample.users_db in
  snd (run (handle_call_tool Lit.QUERY arguments) (failing 4%nat))
  = Return [{| types.type := Lit.TEXT;
               types.text := Lit.QUERY_FAILED
                               ++ exn_str Inputs.syntax_error |}]
  /\ snd (run (handle_call_tool Lit.QUERY arguments) closed)
     = Raise Inputs.pool_closed
  /\ snd (run handle_list_resources (failing 2%nat))
     = Raise Inputs.syntax_error
  /\ snd (run (handle_read_resource Inputs.users_uri) (failing 3%nat))
     = Raise Inputs.syntax_error.
Proof.
  intros arguments failing closed.
  split; [|split; [|split]].
  - apply (proj1 (driver_errors_caught_or_propagated (failing 4%nat))
             arguments (Execute 7 (sql_of arguments) []));
      vm_compute; reflexivity.
  - apply (proj1 (proj2 (driver_errors_caught_or_propagated closed))
             arguments 1);
      vm_compute; reflexivity.
  - apply (proj1 (proj2 (proj2
             (driver_errors_caught_or_propagated (failing 2%nat))))
             (Execute 7 Lit.LIST_TABLES_SQL []));
      [vm_compute; reflexivity | discriminate].
  - apply (proj2 (proj2 (proj2
             (driver_errors_caught_or_propagated (failing 3%nat))))
             Inputs.users_uri (Fetchall 7));
      [vm_compute; reflexivity | discriminate].
Defined.

(** C8.  For a table whose catalog rows are [id] (not nullable: the
    [is_nullable] cell is [NO]) and [name] (nullable: [YES]) and which has
    no constraint rows, [handle_read_resource] returns the rendering of
    a document whose columns are, in the order of the rows, [id] with
    [nullable] false and [name] with [nullable] true, each with the type
    and description cells as the catalog gave them, and whose
    constraints list is empty. *)
Theorem users_table_schema_document
    (env : Env) (uri tbl : pystr) (ty_id ty_name d_id d_name : pyval) :
  table_name_of uri = Some tbl ->
  serves_table env tbl
    [[PyStr (PyStr.py "id"); ty_id; PyStr (PyStr.py "NO"); d_id];
     [PyStr (PyStr.py "name"); ty_name; PyStr (PyStr.py "YES"); d_name]]
    [] ->
  snd (run (handle_read_resource uri) env)
  = Return
      (py_str (rt env)
         (PyDict
            [(Lit.K_COLUMNS,
              PyList
                [PyDict [(Lit.K_NAME, PyStr (PyStr.py "id"));
                         (Lit.K_TYPE, ty_id);
                         (Lit.K_NULLABLE, PyBool false);
                         (Lit.K_DESCRIPTION, d_id)];
                 PyDict [(Lit.K_NAME, PyStr (PyStr.py "name"));
                         (Lit.K_TYPE, ty_name);
                         (Lit.K_NULLABLE, PyBool true);
                         (Lit.K_DESCRIPTION, d_name)]]);
             (Lit.K_CONSTRAINTS, PyList [])])).
Proof.
  intros Ht Hserves.
  apply (read_resource_schema env uri tbl
           [(PyStr (PyStr.py "id"), ty_id, PyStr (PyStr.py "NO"), d_id);
            (PyStr (PyStr.py "name"), ty_name, PyStr (PyStr.py "YES"), d_name)]
           [] Ht Hserves).
Qed.

Lemma users_db_serves_users :
  serves_table Sample.users_db (PyStr.py "users")
    [[PyStr (PyStr.py "id"); PyStr (PyStr.py "integer");
      PyStr (PyStr.py "NO"); PyNone];
     [PyStr (PyStr.py "name"); PyStr (PyStr.py "text");
      PyStr (PyStr.py "YES"); PyNone]]
    [].
Proof.
  constructor; intros; try (eexists; reflexivity); try reflexivity;
    cbn [Sample.users_db Sample.healthy cur_fetchall];
    match goal with H : last_executed _ = _ |- _ => rewrite H end;
    reflexivity.
Defined.

Lemma users_table_schema_document_witness :
  table_name_of Inputs.users_uri = Some (PyStr.py "users")
  /\ snd (run (handle_read_resource Inputs.users_uri) Sample.users_db)
     = Return
         (PyStr.py
            ("{'columns': [{'name': 'id', 'type': 'integer', 'nullable': False, 'description': None}, "
             ++ "{'name': 'name', 'type': 'text', 'nullable': True, 'description': None}], "
             ++ "'constraints': []}")).
Proof.
  split; [reflexivity|].
  exact (users_table_schema_document Sample.users_db Inputs.users_uri
           (PyStr.py "users") (PyStr (PyStr.py "integer"))
           (PyStr (PyStr.py "text")) PyNone PyNone
           eq_refl users_db_serves_users).
Defined.

(** C9.  When [arguments] has no [sql] key, the query tool raises the
    empty-query [ValueError] without any call, exactly as it does when the
    key is there with the empty string. *)
Theorem missing_sql_is_empty_query
    (env : Env) (arguments : gmap pystr pystr) :
  arguments !! Lit.SQL = None ->
  run (handle_call_tool Lit.QUERY arguments) env
  = ([], Raise (ValueError Lit.EMPTY_QUERY))
  /\ run (handle_call_tool Lit.QUERY arguments) env
     = run (handle_call_tool Lit.QUERY (<[ Lit.SQL := [] ]> arguments)) env.
Proof.
  intros H.
  assert (E1 : sql_of arguments = []) by (unfold sql_of; rewrite H; reflexivity).
  assert (E2 : sql_of (<[ Lit.SQL := [] ]> arguments) = [])
    by (unfold sql_of; rewrite lookup_insert_eq; reflexivity).
  rewrite !call_tool_empty by assumption. split; reflexivity.
Qed.

Lemma missing_sql_is_empty_query_witness :
  (∅ : gmap pystr pystr) !! Lit.SQL = None
  /\ run (handle_call_tool Lit.QUERY ∅) Sample.users_db
     = ([], Raise (ValueError Lit.EMPTY_QUERY))
  /\ run (handle_call_tool Lit.QUERY ∅) Sample.users_db
     = run (handle_call_tool Lit.QUERY (<[ Lit.SQL := [] ]> ∅)) Sample.users_db.
Proof.
  split; [apply lookup_empty|].
  exact (missing_sql_is_empty_query Sample.users_db ∅ (lookup_empty _)).
Defined.

(** The comprehensions of [handle_read_resource] raise nothing but the
    [IndexError] of a row that is too short. *)
Lemma column_entry_raises (col : row) (env : Env) (st st' : frame) (e : exn) :
  column_entry col env st = (st', Raise e) -> e = IndexError.
Proof.
  cbv [column_entry item bind ret raise].
  repeat match goal with
         | |- context [col !! ?i] => destruct (col !! i)
         end; intros [=]; congruence.
Qed.

Lemma constraint_entry_raises (con : row) (env : Env) (st st' : frame) (e : exn) :
  constraint_entry con env st = (st', Raise e) -> e = IndexError.
Proof.
  cbv [constraint_entry item bind ret raise].
  repeat match goal with
         | |- context [con !! ?i] => destruct (con !! i)
         end; intros [=]; congruence.
Qed.

Lemma comprehension_raises {A B} (f : A -> M B) (l : list A)
    (env : Env) (st st' : frame) (e : exn) :
  (forall x env st st' e, f x env st = (st', Raise e) -> e = IndexError) ->
  comprehension f l env st = (st', Raise e) -> e = IndexError.
Proof.
  intros Hf. revert st st'. induction l as [|x l IH]; intros st st'; simpl.
  - intros [=].
  - unfold bind at 1. destruct (f x env st) as [st1 [y|e1]] eqn:Ex.
    + unfold bind at 1.
      destruct (comprehension f l env st1) as [st2 [ys|e2]] eqn:El.
      * intros [=].
      * intros [= _ <-]. eapply IH. eassumption.
    + intros [= _ <-]. eapply Hf. eassumption.
Qed.

Ltac answer_entries :=
  match goal with
  | |- context [comprehension column_entry ?l ?env ?st] =>
      let H := fresh "H" in
      let E := fresh "E" in
      pose proof (silent_comprehension column_entry l
                    ltac:(auto with silent) env st) as H;
      destruct (comprehension column_entry l env st) as [? [?|?]] eqn:E;
      simpl in H; subst;
      try (apply comprehension_raises in E;
           [subst | apply column_entry_raises])
  | |- context [comprehension constraint_entry ?l ?env ?st] =>
      let H := fresh "H" in
      let E := fresh "E" in
      pose proof (silent_comprehension constraint_entry l
                    ltac:(auto with silent) env st) as H;
      destruct (comprehension constraint_entry l env st) as [? [?|?]] eqn:E;
      simpl in H; subst;
      try (apply comprehension_raises in E;
           [subst | apply constraint_entry_raises])
  end.

Lemma read_resource_queries (env : Env) (uri tbl : pystr) :
  table_name_of uri = Some tbl ->
  let t := fst (run (handle_read_resource uri) env) in
  (executed t = []
   \/ executed t = [(Lit.COLUMNS_SQL, [PyStr tbl])]
   \/ executed t = [(Lit.COLUMNS_SQL, [PyStr tbl]);
                    (Lit.CONSTRAINTS_SQL, [PyStr tbl])])
  /\ (forall c, In (Ev (Cursor c) None) t ->
      exists rest, executed t = (Lit.COLUMNS_SQL, [PyStr tbl]) :: rest)
  /\ (forall k, In (Ev (Fetchall k) None) t ->
      executed t = [(Lit.COLUMNS_SQL, [PyStr tbl]);
                    (Lit.CONSTRAINTS_SQL, [PyStr tbl])])
  /\ (last_failure t = None ->
      exists c k,
        pool_getconn env [] = Return c
        /\ conn_cursor env [Ev Getconn None] c = Return k
        /\ map ev_call t
           = [Getconn;
              Cursor c;
              Execute k Lit.COLUMNS_SQL [PyStr tbl];
              Fetchall k;
              Execute k Lit.CONSTRAINTS_SQL [PyStr tbl];
              Fetchall k;
              CursorExit k;
              Putconn c]).
Proof.
  intros Ht. start. rewrite Ht. cbn [calls conn_var raised app fst snd].
  repeat (first [answer_entries | answer];
          cbn [calls conn_var raised app fst snd is_psycopg_error]);
    cbn [executed ev_call last_failure ev_exn map In];
    (split;
     [ first [ left; reflexivity
             | right; left; reflexivity
             | right; right; reflexivity ]
     | split;
       [ intros c0 H;
         repeat match goal with H : _ \/ _ |- _ => destruct H as [H|H] end;
         first [ discriminate H | contradiction | eexists; reflexivity ]
       | split;
         [ intros k0 H;
           repeat match goal with H : _ \/ _ |- _ => destruct H as [H|H] end;
           first [ discriminate H | contradiction | reflexivity ]
         | intros H;
           first [ discriminate H
                 | do 2 eexists; split; [first [eassumption | reflexivity]|];
                   split; [first [eassumption | reflexivity] | reflexivity] ] ] ] ]).
Qed.

(** C10.  Two URIs whose second-to-last [/]-separated segment is the same
    [tbl] give the same run of [handle_read_resource]: the same calls and
    the same result, whatever their scheme, host and last segment.  The
    statements of the run are the column query and then the constraint
    query, each a fixed text executed with [tbl] as its only bound
    parameter: the column query is executed whenever a cursor was
    obtained, the constraint query as well whenever a fetch returned, and
    when no call fails the run is exactly [getconn], the cursor, the
    column query with [tbl], its fetch, the constraint query with [tbl],
    its fetch, the cursor's close and [putconn]. *)
Theorem read_resource_depends_on_table_segment_only
    (env : Env) (u1 u2 : pystr) (pre1 pre2 : list pystr) (tbl z1 z2 : pystr) :
  PyStr.split Lit.SLASH u1 = pre1 ++ [tbl; z1] ->
  PyStr.split Lit.SLASH u2 = pre2 ++ [tbl; z2] ->
  run (handle_read_resource u1) env = run (handle_read_resource u2) env
  /\ (executed (fst (run (handle_read_resource u1) env)) = []
      \/ executed (fst (run (handle_read_resource u1) env))
         = [(Lit.COLUMNS_SQL, [PyStr tbl])]
      \/ executed (fst (run (handle_read_resource u1) env))
         = [(Lit.COLUMNS_SQL, [PyStr tbl]);
            (Lit.CONSTRAINTS_SQL, [PyStr tbl])])
  /\ (forall c,
        In (Ev (Cursor c) None) (fst (run (handle_read_resource u1) env)) ->
        exists rest,
          executed (fst (run (handle_read_resource u1) env))
          = (Lit.COLUMNS_SQL, [PyStr tbl]) :: rest)
  /\ (forall k,
        In (Ev (Fetchall k) None) (fst (run (handle_read_resource u1) env)) ->
        executed (fst (run (handle_read_resource u1) env))
        = [(Lit.COLUMNS_SQL, [PyStr tbl]);
           (Lit.CONSTRAINTS_SQL, [PyStr tbl])])
  /\ (last_failure (fst (run (handle_read_resource u1) env)) = None ->
      exists c k,
        pool_getconn env [] = Return c
        /\ conn_cursor env [Ev Getconn None] c = Return k
        /\ map ev_call (fst (run (handle_read_resource u1) env))
           = [Getconn;
              Cursor c;
              Execute k Lit.COLUMNS_SQL [PyStr tbl];
              Fetchall k;
              Execute k Lit.CONSTRAINTS_SQL [PyStr tbl];
              Fetchall k;
              CursorExit k;
              Putconn c]).
Proof.
  intros H1 H2.
  apply table_name_second_to_last in H1. apply table_name_second_to_last in H2.
  split.
  - apply read_resource_same_table. congruence.
  - apply (read_resource_queries env u1 tbl H1).
Qed.

Lemma read_resource_depends_on_table_segment_only_witness :
  let users := PyStr.py "users" in
  PyStr.split Lit.SLASH Inputs.users_uri
  = [PyStr.py "postgres:"; []; PyStr.py "localhost"]
      ++ [users; PyStr.py "schema"]
  /\ PyStr.split Lit.SLASH Inputs.other_uri
     = [PyStr.py "mysql:"; []; PyStr.py "elsewhere:3306"]
         ++ [users; PyStr.py "columns"]
  /\ run (handle_read_resource Inputs.users_uri) Sample.users_db
     = run (handle_read_resource Inputs.other_uri) Sample.users_db
  /\ executed (fst (run (handle_read_resource Inputs.users_uri)
                      Sample.users_db))
     = [(Lit.COLUMNS_SQL, [PyStr users]); (Lit.CONSTRAINTS_SQL, [PyStr users])]
  /\ exists c k,
       map ev_call (fst (run (handle_read_resource Inputs.users_uri)
                           Sample.users_db))
       = [Getconn;
          Cursor c;
          Execute k Lit.COLUMNS_SQL [PyStr users];
          Fetchall k;
          Execute k Lit.CONSTRAINTS_SQL [PyStr users];
          Fetchall k;
          CursorExit k;
          Putconn c].
Proof.
  intros users.
  assert (H1 : PyStr.split Lit.SLASH Inputs.users_uri
               = [PyStr.py "postgres:"; []; PyStr.py "localhost"]
                   ++ [users; PyStr.py "schema"]) by reflexivity.
  assert (H2 : PyStr.split Lit.SLASH Inputs.other_uri
               = [PyStr.py "mysql:"; []; PyStr.py "elsewhere:3306"]
                   ++ [users; PyStr.py "columns"]) by reflexivity.
  destruct (read_resource_depends_on_table_segment_only Sample.users_db
              Inputs.users_uri Inputs.other_uri _ _ users _ _ H1 H2)
    as (Hrun & _ & _ & Hfetch & Hall).
  split; [exact H1|]. split; [exact H2|]. split; [exact Hrun|].
  split.
  - apply (Hfetch 7). vm_compute. tauto.
  - destruct Hall as (c & k & _ & _ & Hcalls); [vm_compute; reflexivity|].
    exists c, k. exact Hcalls.
Defined.

(** * Further properties of the handlers *)

(** ** Resource URIs *)








(** ** The table listing *)

Lemma resource_of_listing_row (t : pystr * option pystr) (env : Env) (st : frame) :
  resource_of_table (listing_row t) env st = (st, descriptor env t).
Proof.
  destruct t as [n [c|]];
    cbv [resource_of_table listing_row item bind ret asks Resource descriptor];
    cbn [lookup list_lookup fst snd py_format truthy]; [|reflexivity].
  destruct (PyStr.eqb c []); reflexivity.
Qed.

Lemma comprehension_listing_rows (tables : list (pystr * option pystr))
    (resources : list types.Resource) (env : Env) (st : frame) :
  Forall2 (fun t r => descriptor env t = Return r) tables resources ->
  comprehension resource_of_table (map listing_row tables) env st
  = (st, Return resources).
Proof.
  induction 1 as [|t r tables resources Ht _ IH]; [reflexivity|].
  cbn [map comprehension]. unfold bind, ret.
  rewrite resource_of_listing_row, Ht. cbv beta iota. rewrite IH. reflexivity.
Qed.

Lemma comprehension_listing_refused (before after : list (pystr * option pystr))
    (t : pystr * option pystr) (resources : list types.Resource) (e : exn)
    (env : Env) (st : frame) :
  Forall2 (fun t r => descriptor env t = Return r) before resources ->
  descriptor env t = Raise e ->
  comprehension resource_of_table (map listing_row (before ++ t :: after)) env st
  = (st, Raise e).
Proof.
  intros Hb Ht. induction Hb as [|t0 r before resources Ht0 _ IH].
  - cbn [app map comprehension]. unfold bind.
    rewrite resource_of_listing_row, Ht. reflexivity.
  - cbn [app map comprehension]. unfold bind, ret.
    rewrite resource_of_listing_row, Ht0. cbv beta iota.
    cbn [app map] in IH. rewrite IH. reflexivity.
Qed.

Ltac serve_listing Hg Hc He Hrows :=
  start;
  match goal with |- context [pool_getconn ?env ?t] =>
    let c := fresh "c" in let Ec := fresh "Ec" in
    destruct (Hg t) as [c Ec]; rewrite Ec end;
  cbn [calls conn_var raised app fst snd];
  match goal with |- context [conn_cursor ?env ?t ?c] =>
    let k := fresh "k" in let Ek := fresh "Ek" in
    destruct (Hc t c) as [k Ek]; rewrite Ek end;
  cbn [calls conn_var raised app fst snd];
  rewrite ?He; cbn [calls conn_var raised app fst snd];
  match goal with |- context [cur_fetchall ?env ?t ?k] =>
    rewrite (Hrows t k) by reflexivity end;
  cbn [calls conn_var raised app fst snd].

(** X3.  When no call fails and the catalog lists the tables [tables]
    (name and comment), [handle_list_resources] hands to the resource
    constructor, for each table in the order of the listing, the URI
    [postgres://<host>/<name>/schema], the name [<name> schema], the
    comment as description ([None] both for a missing comment and for an
    empty one) and the media type [application/json].  If the constructor
    accepts them all, the handler returns what it built, in that order;
    if it raises for a table after accepting those before it, the handler
    raises that exception. *)
Theorem list_resources_descriptors
    (env : Env) (tables : list (pystr * option pystr)) :
  serves_listing env (map listing_row tables) ->
  (forall resources,
     Forall2
       (fun t r =>
          new_resource env
            (Lit.URI_SCHEME ++ host env ++ [Lit.SLASH] ++ fst t
               ++ Lit.URI_SUFFIX)
            (fst t ++ Lit.NAME_SUFFIX)
            match snd t with
            | Some comment =>
                if PyStr.eqb comment [] then PyNone else PyStr comment
            | None => PyNone
            end
            Lit.MIME_JSON
          = Return r)
       tables resources ->
     snd (run handle_list_resources env) = Return resources)
  /\ (forall before t after resources e,
        tables = before ++ t :: after ->
        Forall2 (fun t r => descriptor env t = Return r) before resources ->
        new_resource env
          (Lit.URI_SCHEME ++ host env ++ [Lit.SLASH] ++ fst t
             ++ Lit.URI_SUFFIX)
          (fst t ++ Lit.NAME_SUFFIX)
          match snd t with
          | Some comment =>
              if PyStr.eqb comment [] then PyNone else PyStr comment
          | None => PyNone
          end
          Lit.MIME_JSON
        = Raise e ->
        snd (run handle_list_resources env) = Raise e).
Proof.
  intros [Hg Hc He Hrows Hx Hp]. split.
  - intros resources Hres.
    serve_listing Hg Hc He Hrows.
    rewrite (comprehension_listing_rows tables resources) by exact Hres.
    rewrite Hx. cbn [calls conn_var raised app fst snd].
    rewrite Hp. reflexivity.
  - intros before t after resources e -> Hbefore Ht.
    serve_listing Hg Hc He Hrows.
    rewrite (comprehension_listing_refused before after t resources e)
      by assumption.
    rewrite Hx. cbn [calls conn_var raised app fst snd].
    destruct (is_psycopg_error e); cbn [calls conn_var raised app fst snd];
      rewrite Hp; reflexivity.
Qed.

Lemma users_db_serves_listing :
  serves_listing Sample.users_db [listing_row (PyStr.py "users", None)].
Proof.
  constructor; intros; try (eexists; reflexivity); try reflexivity;
    cbn [Sample.users_db Sample.healthy cur_fetchall];
    match goal with H : last_executed _ = _ |- _ => rewrite H end;
    reflexivity.
Defined.

Lemma refusing_resources_serves_listing :
  serves_listing Sample.refusing_resources
    [listing_row (PyStr.py "users", None)].
Proof.
  constructor; intros; try (eexists; reflexivity); try reflexivity;
    cbn [Sample.refusing_resources Sample.users_db Sample.healthy cur_fetchall];
    match goal with H : last_executed _ = _ |- _ => rewrite H end;
    reflexivity.
Defined.

Lemma list_resources_descriptors_witness :
  snd (run handle_list_resources Sample.users_db)
  = Return
      [{| types.uri := PyStr.py "postgres://localhost/users/schema";
          types.name := PyStr.py "users schema";
          types.description := PyNone;
          types.mimeType := PyStr.py "application/json" |}]
  /\ snd (run handle_list_resources Sample.refusing_resources)
     = Raise Sample.invalid_url.
Proof.
  split.
  - apply (proj1 (list_resources_descriptors Sample.users_db
                    [(PyStr.py "users", None)] users_db_serves_listing)).
    repeat constructor.
  - apply (proj2 (list_resources_descriptors Sample.refusing_resources
                    [(PyStr.py "users", None)]
                    refusing_resources_serves_listing)
             [] (PyStr.py "users", None) [] []);
      [reflexivity | constructor | reflexivity].
Defined.

(** ** The schema document for any table *)

Lemma eq_str_true (v : pyval) (s : pystr) : eq_str v s = true <-> v = PyStr s.
Proof.
  destruct v; simpl; try (split; [discriminate | intros [=]]).
  rewrite eqb_eq. split; [intros ->; reflexivity | intros [= ->]; reflexivity].
Qed.

(** X4.  When no call fails, [handle_read_resource] returns the rendering
    of a document with one entry per catalog row, in the order of the
    rows: a column entry carries the row's name, type and description
    cells unchanged and [nullable] true exactly when the [is_nullable]
    cell is the string [YES]; a constraint entry carries the name and the
    kind code unchanged.  A table the catalog has no rows for gives the
    document with two empty lists, not an error. *)
Theorem schema_document_follows_catalog
    (env : Env) (uri tbl : pystr)
    (cols : list (pyval * pyval * pyval * pyval)) (cons : list (pyval * pyval)) :
  table_name_of uri = Some tbl ->
  serves_table env tbl (map column_row cols) (map constraint_row cons) ->
  snd (run (handle_read_resource uri) env)
  = Return
      (py_str (rt env)
         (PyDict
            [(Lit.K_COLUMNS,
              PyList
                (map (fun c =>
                        let '(n, ty, nullable, d) := c in
                        PyDict [(Lit.K_NAME, n);
                                (Lit.K_TYPE, ty);
                                (Lit.K_NULLABLE,
                                 PyBool (eq_str nullable Lit.YES));
                                (Lit.K_DESCRIPTION, d)])
                   cols));
             (Lit.K_CONSTRAINTS,
              PyList
                (map (fun c => PyDict [(Lit.K_NAME, fst c);
                                       (Lit.K_TYPE, snd c)])
                   cons))]))
  /\ (forall v, eq_str v Lit.YES = true <-> v = PyStr Lit.YES).
Proof.
  intros Ht Hserves. split.
  - apply (read_resource_schema env uri tbl cols cons Ht Hserves).
  - intros v. apply eq_str_true.
Qed.

Lemma users_db_serves_orders :
  serves_table Sample.users_db (PyStr.py "orders")
    (map column_row
       [(PyStr (PyStr.py "id"), PyStr (PyStr.py "integer"),
         PyStr (PyStr.py "NO"), PyNone);
        (PyStr (PyStr.py "name"), PyStr (PyStr.py "text"),
         PyStr (PyStr.py "YES"), PyNone)])
    (map constraint_row []).
Proof.
  constructor; intros; try (eexists; reflexivity); try reflexivity;
    cbn [Sample.users_db Sample.healthy cur_fetchall];
    match goal with H : last_executed _ = _ |- _ => rewrite H end;
    reflexivity.
Defined.

Lemma schema_document_follows_catalog_witness :
  table_name_of (PyStr.py "x/orders/y") = Some (PyStr.py "orders")
  /\ snd (run (handle_read_resource (PyStr.py "x/orders/y")) Sample.users_db)
     = Return
         (PyStr.py
            ("{'columns': [{'name': 'id', 'type': 'integer', 'nullable': False, 'description': None}, "
             ++ "{'name': 'name', 'type': 'text', 'nullable': True, 'description': None}], "
             ++ "'constraints': []}")).
Proof.
  split; [reflexivity|].
  exact (proj1 (schema_document_follows_catalog Sample.users_db
                  (PyStr.py "x/orders/y") (PyStr.py "orders") _ _
                  eq_refl users_db_serves_orders)).
Defined.

(** ** Acquire, act, release *)

Ltac follow_session :=
  unfold disciplined;
  repeat (cbn [session_run session_step ev_call ev_exn app];
          rewrite ?N.eqb_refl;
          try match goal with
              | H : pool_getconn _ _ = _ |- _ => rewrite H
              | H : conn_cursor _ _ _ = _ |- _ => rewrite H
              end);
  reflexivity.

Lemma list_resources_disciplined (env : Env) :
  disciplined env (fst (run handle_list_resources env)) = true.
Proof. exec; follow_session. Qed.

Lemma read_resource_disciplined (env : Env) (uri : pystr) :
  disciplined env (fst (run (handle_read_resource uri) env)) = true.
Proof.
  start. destruct (table_name_of uri); cbn [calls conn_var raised app fst snd];
    repeat (answer; cbn [calls conn_var raised app fst snd is_psycopg_error]);
    follow_session.
Qed.

Lemma guarded_query_disciplined (env : Env) (sql : pystr) :
  disciplined env (fst (run (guarded_query sql) env)) = true.
Proof. exec; follow_session. Qed.

(** X5.  In every run of the three handlers, whatever the environment
    answers, the calls follow the session discipline: before [getconn]
    only the logger is called; after a refused [getconn] only the logger;
    a cursor is opened on the connection that [getconn] returned; every
    [execute] and [fetchall] goes to the cursor that is open; the cursor
    is closed before [putconn]; [putconn] gets the connection that
    [getconn] returned and is the last call; no handler ends holding a
    connection or an open cursor. *)
Theorem handlers_are_disciplined (env : Env) :
  disciplined env (fst (run handle_list_resources env)) = true
  /\ (forall uri,
        disciplined env (fst (run (handle_read_resource uri) env)) = true)
  /\ (forall name arguments,
        disciplined env (fst (run (handle_call_tool name arguments) env))
        = true).
Proof.
  split; [apply list_resources_disciplined|].
  split; [apply read_resource_disciplined|].
  intros name arguments.
  destruct (call_tool_cases env name arguments) as [[msg E]|(_ & _ & E)];
    rewrite E; [reflexivity | apply guarded_query_disciplined].
Qed.

(** ** What is logged and what propagates *)

Ltac find_event := cbn [In]; repeat first [ left; reflexivity | right ].

Ltac by_last_failure H :=
  cbn [last_failure ev_exn ev_call] in H;
  first [ discriminate H | inversion H; subst ].

Lemma guarded_query_logs_error (env : Env) (sql : pystr) (c : call) (m : pystr) :
  last_failure (fst (run (guarded_query sql) env)) = Some (c, PsycopgError m) ->
  (forall c0, c <> Putconn c0) ->
  In (Ev (Log Lit.ERROR (Lit.QUERY_FAILED ++ m)) None)
     (fst (run (guarded_query sql) env)).
Proof.
  exec; intros H Hc; by_last_failure H;
    first [ exfalso; eapply Hc; reflexivity | find_event ].
Qed.

Lemma list_resources_logs_error (env : Env) (c : call) (m : pystr) :
  last_failure (fst (run handle_list_resources env)) = Some (c, PsycopgError m) ->
  (forall c0, c <> Putconn c0) ->
  In (Ev (Log Lit.ERROR (Lit.LIST_FAILED ++ m)) None)
     (fst (run handle_list_resources env)).
Proof.
  exec; intros H Hc; by_last_failure H;
    first [ exfalso; eapply Hc; reflexivity | find_event ].
Qed.

Lemma read_resource_logs_error (env : Env) (uri : pystr) (c : call) (m : pystr) :
  last_failure (fst (run (handle_read_resource uri) env))
  = Some (c, PsycopgError m) ->
  (forall c0, c <> Putconn c0) ->
  In (Ev (Log Lit.ERROR (Lit.READ_FAILED ++ m)) None)
     (fst (run (handle_read_resource uri) env)).
Proof.
  start. destruct (table_name_of uri); cbn [calls conn_var raised app fst snd];
    repeat (answer; cbn [calls conn_var raised app fst snd is_psycopg_error]);
    intros H Hc; by_last_failure H;
    first [ exfalso; eapply Hc; reflexivity | find_event ].
Qed.

(** X6.  Whenever the last call to fail in a handler's run raised a
    psycopg2 error and that call is not [putconn], the handler has logged
    the error at level [error]: its own failure prefix followed by the
    error's message.  This includes a refused [getconn]. *)
Theorem driver_errors_are_logged (env : Env) :
  (forall arguments c m,
     accepted (rt env) (default [] (arguments !! Lit.SQL)) = true ->
     last_failure (fst (run (handle_call_tool Lit.QUERY arguments) env))
     = Some (c, PsycopgError m) ->
     (forall c0, c <> Putconn c0) ->
     In (Ev (Log Lit.ERROR (Lit.QUERY_FAILED ++ m)) None)
        (fst (run (handle_call_tool Lit.QUERY arguments) env)))
  /\ (forall c m,
        last_failure (fst (run handle_list_resources env))
        = Some (c, PsycopgError m) ->
        (forall c0, c <> Putconn c0) ->
        In (Ev (Log Lit.ERROR (Lit.LIST_FAILED ++ m)) None)
           (fst (run handle_list_resources env)))
  /\ (forall uri c m,
        last_failure (fst (run (handle_read_resource uri) env))
        = Some (c, PsycopgError m) ->
        (forall c0, c <> Putconn c0) ->
        In (Ev (Log Lit.ERROR (Lit.READ_FAILED ++ m)) None)
           (fst (run (handle_read_resource uri) env))).
Proof.
  split; [|split].
  - intros arguments c m Hacc. unfold run.
    rewrite call_tool_accepted by assumption.
    apply (guarded_query_logs_error env (sql_of arguments) c m).
  - apply list_resources_logs_error.
  - intros uri. apply read_resource_logs_error.
Qed.

Lemma driver_errors_are_logged_witness :
  let arguments : gmap pystr pystr := {[ Lit.SQL := Inputs.select_one ]} in
  let failing n := Sample.fail_at n Inputs.syntax_error Sample.users_db in
  In (Ev (Log Lit.ERROR (Lit.QUERY_FAILED ++ exn_str Inputs.syntax_error)) None)
     (fst (run (handle_call_tool Lit.QUERY arguments) (failing 7%nat)))
  /\ In (Ev (Log Lit.ERROR (Lit.LIST_FAILED ++ exn_str Inputs.syntax_error))
           None)
        (fst (run handle_list_resources (failing 0%nat)))
  /\ In (Ev (Log Lit.ERROR (Lit.READ_FAILED ++ exn_str Inputs.syntax_error))
           None)
        (fst (run (handle_read_resource Inputs.users_uri) (failing 4%nat))).
Proof.
  intros arguments failing.
  split; [|split].
  - apply (proj1 (driver_errors_are_logged (failing 7%nat))
             arguments (Execute 7 Lit.ROLLBACK []));
      [vm_compute; reflexivity | vm_compute; reflexivity | discriminate].
  - apply (proj1 (proj2 (driver_errors_are_logged (failing 0%nat))) Getconn);
      [vm_compute; reflexivity | discriminate].
  - apply (proj2 (proj2 (driver_errors_are_logged (failing 4%nat)))
             Inputs.users_uri
             (Execute 7 Lit.CONSTRAINTS_SQL [PyStr (PyStr.py "users")]));
      [vm_compute; reflexivity | discriminate].
Defined.

Lemma guarded_query_passes_other_errors (env : Env) (sql : pystr)
    (c : call) (e : exn) :
  last_failure (fst (run (guarded_query sql) env)) = Some (c, e) ->
  is_psycopg_error e = false ->
  c <> Getconn ->
  snd (run (guarded_query sql) env) = Raise e.
Proof.
  exec; intros H He Hc; by_last_failure H;
    first [ discriminate He | contradiction | reflexivity ].
Qed.

(** X7.  The query tool turns only psycopg2 errors into a text response:
    when the last call to fail, other than [getconn], raised an exception
    from outside psycopg2's hierarchy, that exception reaches the caller. *)
Theorem other_errors_leave_the_query_tool
    (env : Env) (arguments : gmap pystr pystr) (c : call) (e : exn) :
  accepted (rt env) (default [] (arguments !! Lit.SQL)) = true ->
  last_failure (fst (run (handle_call_tool Lit.QUERY arguments) env))
  = Some (c, e) ->
  is_psycopg_error e = false ->
  c <> Getconn ->
  snd (run (handle_call_tool Lit.QUERY arguments) env) = Raise e.
Proof.
  intros Hacc. unfold run. rewrite call_tool_accepted by assumption.
  apply (guarded_query_passes_other_errors env (sql_of arguments) c e).
Qed.

Lemma other_errors_leave_the_query_tool_witness :
  let arguments : gmap pystr pystr := {[ Lit.SQL := Inputs.select_one ]} in
  let interrupted := OtherError (PyStr.py "MemoryError") in
  let env := Sample.fail_at 5 interrupted Sample.users_db in
  statements (fst (run (handle_call_tool Lit.QUERY arguments) env))
  = [(Lit.BEGIN_READ_ONLY, true); (sql_of arguments, true);
     (Lit.ROLLBACK, true)]
  /\ snd (run (handle_call_tool Lit.QUERY arguments) env) = Raise interrupted.
Proof.
  intros arguments interrupted env.
  split; [vm_compute; reflexivity|].
  apply (other_errors_leave_the_query_tool env arguments (Fetchall 7));
    [vm_compute; reflexivity | vm_compute; reflexivity | reflexivity
    | discriminate].
Defined.

Lemma list_resources_refused (env : Env) :
  acquire_calls (fst (run handle_list_resources env)) = 1%nat ->
  acquired (fst (run handle_list_resources env)) = 0%nat ->
  snd (run handle_list_resources env)
  = Raise (UnboundLocalError (PyStr.py "conn")).
Proof. exec; intros H1 H2; first [discriminate H2 | reflexivity]. Qed.

Lemma read_resource_refused (env : Env) (uri : pystr) :
  acquire_calls (fst (run (handle_read_resource uri) env)) = 1%nat ->
  acquired (fst (run (handle_read_resource uri) env)) = 0%nat ->
  snd (run (handle_read_resource uri) env)
  = Raise (UnboundLocalError (PyStr.py "conn")).
Proof.
  start. destruct (table_name_of uri); cbn [calls conn_var raised app fst snd];
    repeat (answer; cbn [calls conn_var raised app fst snd is_psycopg_error]);
    intros H1 H2; first [discriminate H2 | reflexivity].
Qed.

Lemma guarded_query_refused (env : Env) (sql : pystr) :
  acquired (fst (run (guarded_query sql) env)) = 0%nat ->
  snd (run (guarded_query sql) env)
  = Raise (UnboundLocalError (PyStr.py "conn")).
Proof. exec; intros H2; first [discriminate H2 | reflexivity]. Qed.

(** X8.  When [getconn] is called and hands out no connection, whatever
    it raised, each of the three handlers ends by raising
    [UnboundLocalError] for [conn]: the cleanup reads the variable the
    failed call never bound.  For the query tool this holds although its
    [except] clause has already built the error response. *)
Theorem refused_acquire_ends_in_unbound_conn (env : Env) :
  (acquire_calls (fst (run handle_list_resources env)) = 1%nat ->
   acquired (fst (run handle_list_resources env)) = 0%nat ->
   snd (run handle_list_resources env)
   = Raise (UnboundLocalError (PyStr.py "conn")))
  /\ (forall uri,
        acquire_calls (fst (run (handle_read_resource uri) env)) = 1%nat ->
        acquired (fst (run (handle_read_resource uri) env)) = 0%nat ->
        snd (run (handle_read_resource uri) env)
        = Raise (UnboundLocalError (PyStr.py "conn")))
  /\ (forall arguments,
        accepted (rt env) (default [] (arguments !! Lit.SQL)) = true ->
        acquired (fst (run (handle_call_tool Lit.QUERY arguments) env)) = 0%nat ->
        snd (run (handle_call_tool Lit.QUERY arguments) env)
        = Raise (UnboundLocalError (PyStr.py "conn"))).
Proof.
  split; [apply list_resources_refused|].
  split; [apply read_resource_refused|].
  intros arguments Hacc. unfold run.
  rewrite call_tool_accepted by assumption.
  apply (guarded_query_refused env (sql_of arguments)).
Qed.

Lemma refused_acquire_ends_in_unbound_conn_witness :
  let arguments : gmap pystr pystr := {[ Lit.SQL := Inputs.select_one ]} in
  let refusing n := Sample.fail_at n Sample.pool_exhausted Sample.users_db in
  snd (run handle_list_resources (refusing 0%nat))
  = Raise (UnboundLocalError (PyStr.py "conn"))
  /\ snd (run (handle_read_resource Inputs.users_uri) (refusing 0%nat))
     = Raise (UnboundLocalError (PyStr.py "conn"))
  /\ snd (run (handle_call_tool Lit.QUERY arguments) (refusing 1%nat))
     = Raise (UnboundLocalError (PyStr.py "conn")).
Proof.
  intros arguments refusing.
  split; [|split].
  - apply (proj1 (refused_acquire_ends_in_unbound_conn (refusing 0%nat)));
      vm_compute; reflexivity.
  - apply (proj1 (proj2 (refused_acquire_ends_in_unbound_conn (refusing 0%nat)))
             Inputs.users_uri);
      vm_compute; reflexivity.
  - apply (proj2 (proj2 (refused_acquire_ends_in_unbound_conn (refusing 1%nat)))
             arguments);
      vm_compute; reflexivity.
Defined.

(** ** The result of a query *)

(** X9.  When no call fails, an accepted query returns one text content
    whose text renders a dictionary of the column names in the order of
    the cursor's description, one dictionary per fetched row in fetch
    order, built from the column names zipped with the row, and a
    [row_count] equal to the number of those row dictionaries.  The
    statements sent are [BEGIN TRANSACTION READ ONLY], the stripped
    statement and [ROLLBACK]. *)
Theorem query_result_payload
    (env : Env) (arguments : gmap pystr pystr)
    (results : list row) (ds : list Column) :
  accepted (rt env) (default [] (arguments !! Lit.SQL)) = true ->
  serves_query env (sql_of arguments) results ds ->
  exists rows,
    rows = map (fun r => PyDict (py_dict (py_zip (map col_name ds) r))) results
    /\ run (handle_call_tool Lit.QUERY arguments) env
       = (fst (run (handle_call_tool Lit.QUERY arguments) env),
          Return
            [{| types.type := Lit.TEXT;
                types.text :=
                  py_str (rt env)
                    (PyDict
                       [(Lit.K_COLUMNS, PyList (map PyStr (map col_name ds)));
                        (Lit.K_ROWS, PyList rows);
                        (Lit.K_ROW_COUNT, PyInt (Z.of_nat (length rows)))]) |}])
    /\ statements (fst (run (handle_call_tool Lit.QUERY arguments) env))
       = [(Lit.BEGIN_READ_ONLY, true); (sql_of arguments, true);
          (Lit.ROLLBACK, true)].
Proof.
  intros Hacc [Hg Hc He Hrows Hd Hx Hp].
  eexists; split; [reflexivity|].
  unfold run. rewrite call_tool_accepted by assumption.
  generalize dependent (sql_of arguments). intros sql Hrows.
  start.
  match goal with |- context [pool_getconn env ?t] =>
    destruct (Hg t) as [c Ec]; rewrite Ec end.
  cbn [calls conn_var raised app fst snd].
  match goal with |- context [conn_cursor env ?t ?c] =>
    destruct (Hc t c) as [k Ek]; rewrite Ek end.
  cbn [calls conn_var raised app fst snd].
  rewrite ?He. cbn [calls conn_var raised app fst snd].
  match goal with |- context [cur_fetchall env ?t ?k] =>
    rewrite (Hrows t k) by reflexivity end.
  cbn [calls conn_var raised app fst snd].
  rewrite ?Hd, ?He. cbn [calls conn_var raised app fst snd].
  rewrite ?Hx. cbn [calls conn_var raised app fst snd].
  rewrite ?Hp. cbn [calls conn_var raised app fst snd].
  unfold result_text. rewrite length_map. split; reflexivity.
Qed.

Lemma users_db_serves_select_one :
  serves_query Sample.users_db (PyStr.py "SeLeCt 1") [[PyInt 1]]
    [{| col_name := PyStr.py "?column?"; col_type_code := 23 |}].
Proof.
  constructor; intros; try (eexists; reflexivity); try reflexivity;
    cbn [Sample.users_db Sample.healthy cur_fetchall];
    match goal with H : last_executed _ = _ |- _ => rewrite H end;
    reflexivity.
Defined.

Lemma query_result_payload_witness :
  let arguments : gmap pystr pystr := {[ Lit.SQL := Inputs.select_one ]} in
  exists rows,
    rows = [PyDict [(PyStr.py "?column?", PyInt 1)]]
    /\ snd (run (handle_call_tool Lit.QUERY arguments) Sample.users_db)
       = Return
           [{| types.type := Lit.TEXT;
               types.text :=
                 PyStr.py "{'columns': ['?column?'], 'rows': [{'?column?': 1}], 'row_count': 1}" |}].
Proof.
  intros arguments.
  assert (Hacc : accepted (rt Sample.users_db)
                   (default [] (arguments !! Lit.SQL)) = true)
    by (vm_compute; reflexivity).
  destruct (query_result_payload Sample.users_db arguments _ _ Hacc
              users_db_serves_select_one) as (rows & Hrows & Hrun & _).
  exists rows. split; [exact Hrows|].
  rewrite Hrun, Hrows. reflexivity.
Defined.

(** ** Row dictionaries *)

Lemma dict_set_fresh (d : list (pystr * pyval)) (k : pystr) (v : pyval) :
  ~ In k (map fst d) -> dict_set d k v = d ++ [(k, v)].
Proof.
  induction d as [|[k' v'] d IH]; simpl; intros H; [reflexivity|].
  destruct (PyStr.eqb k' k) eqn:E.
  - apply eqb_eq in E. exfalso; auto.
  - rewrite IH by tauto. reflexivity.
Qed.

Lemma py_dict_from_distinct (pairs d : list (pystr * pyval)) :
  List.NoDup (map fst (d ++ pairs)) ->
  fold_left (fun acc p => dict_set acc (fst p) (snd p)) pairs d = d ++ pairs.
Proof.
  revert d. induction pairs as [|[k v] pairs IH]; intros d H; simpl.
  - rewrite app_nil_r. reflexivity.
  - assert (Hk : ~ In k (map fst d)).
    { rewrite map_app in H. simpl in H. apply NoDup_remove_2 in H.
      intros Hin. apply H. apply in_or_app. left. assumption. }
    rewrite dict_set_fresh by assumption.
    rewrite IH; rewrite <- app_assoc; [reflexivity | exact H].
Qed.

Lemma py_zip_keys_in {A B} (a : list A) (b : list B) (x : A) :
  In x (map fst (py_zip a b)) -> In x a.
Proof.
  revert b. induction a as [|y a IH]; intros [|z b]; simpl; try tauto.
  intros [->|H]; [left; reflexivity | right; eapply IH; eassumption].
Qed.

Lemma py_zip_keys_nodup {A B} (a : list A) (b : list B) :
  List.NoDup a -> List.NoDup (map fst (py_zip a b)).
Proof.
  revert b. induction a as [|y a IH]; intros [|z b] H; simpl;
    try apply List.NoDup_nil.
  inversion H; subst. apply List.NoDup_cons; [|apply IH; assumption].
  intros Hin. apply py_zip_keys_in in Hin. contradiction.
Qed.

Lemma py_zip_same_length {A B} (a : list A) (b : list B) :
  length a = length b ->
  map fst (py_zip a b) = a /\ map snd (py_zip a b) = b.
Proof.
  revert b. induction a as [|y a IH]; intros [|z b] H; simpl in *;
    try discriminate; [split; reflexivity|].
  destruct (IH b) as [E1 E2]; [congruence|]. rewrite E1, E2.
  split; reflexivity.
Qed.

(** X10.  When the column names of a result are pairwise distinct, the
    dictionary built for a row is the column names zipped with the row,
    in column order; with as many cells as columns, every column appears
    with its cell. *)
Theorem row_dict_with_distinct_columns (columns : list pystr) (r : row) :
  List.NoDup columns ->
  py_dict (py_zip columns r) = py_zip columns r
  /\ (length columns = length r ->
      map fst (py_dict (py_zip columns r)) = columns
      /\ map snd (py_dict (py_zip columns r)) = r).
Proof.
  intros H.
  assert (E : py_dict (py_zip columns r) = py_zip columns r).
  { unfold py_dict. rewrite py_dict_from_distinct; [reflexivity|].
    apply py_zip_keys_nodup. assumption. }
  split; [exact E|]. intros Hlen. rewrite E.
  apply py_zip_same_length. assumption.
Qed.

Lemma row_dict_with_distinct_columns_witness :
  let columns := [PyStr.py "id"; PyStr.py "name"] in
  let r := [PyInt 7; PyStr (PyStr.py "ada")] in
  List.NoDup columns
  /\ py_dict (py_zip columns r)
     = [(PyStr.py "id", PyInt 7); (PyStr.py "name", PyStr (PyStr.py "ada"))].
Proof.
  intros columns r.
  assert (H : List.NoDup columns).
  { repeat (apply List.NoDup_cons;
            [vm_compute; intuition discriminate|]).
    apply List.NoDup_nil. }
  split; [exact H|].
  exact (proj1 (row_dict_with_distinct_columns columns r H)).
Defined.

Lemma dict_set_keys (d : list (pystr * pyval)) (k : pystr) (v : pyval) (x : pystr) :
  In x (map fst (dict_set d k v)) <-> x = k \/ In x (map fst d).
Proof.
  induction d as [|[k' v'] d IH]; simpl.
  - intuition.
  - destruct (PyStr.eqb k' k) eqn:E; simpl.
    + apply eqb_eq in E. subst. intuition.
    + rewrite IH. intuition.
Qed.

Lemma dict_set_nodup (d : list (pystr * pyval)) (k : pystr) (v : pyval) :
  List.NoDup (map fst d) -> List.NoDup (map fst (dict_set d k v)).
Proof.
  induction d as [|[k' v'] d IH]; simpl; intros H.
  - apply List.NoDup_cons; [intros []|apply List.NoDup_nil].
  - inversion H; subst. destruct (PyStr.eqb k' k) eqn:E; simpl.
    + apply List.NoDup_cons; assumption.
    + apply List.NoDup_cons; [|apply IH; assumption].
      rewrite dict_set_keys. apply eqb_neq in E. intuition.
Qed.

Lemma dict_set_in (d : list (pystr * pyval)) (k : pystr) (v : pyval)
    (k' : pystr) (v' : pyval) :
  List.NoDup (map fst d) ->
  In (k', v') (dict_set d k v)
  <-> (k' = k /\ v' = v) \/ (k' <> k /\ In (k', v') d).
Proof.
  induction d as [|[k0 v0] d IH]; simpl; intros H.
  - split.
    + intros [[= <- <-]|[]]. left; split; reflexivity.
    + intros [[-> ->]|[_ []]]. left; reflexivity.
  - inversion H as [|? ? Hk0 Hd]; subst.
    destruct (PyStr.eqb k0 k) eqn:E; simpl.
    + apply eqb_eq in E. subst k0. split.
      * intros [[= <- <-]|Hin]; [left; split; reflexivity|].
        right. split; [|right; assumption].
        intros ->. apply Hk0. apply (in_map fst) in Hin. exact Hin.
      * intros [[-> ->]|[Hne [[= -> _]|Hin]]];
          [left; reflexivity | contradiction | right; assumption].
    + apply eqb_neq in E. rewrite (IH Hd). split.
      * intros [[= <- <-]|[[-> ->]|[Hne Hin]]].
        -- right. split; [assumption | left; reflexivity].
        -- left. split; reflexivity.
        -- right. split; [assumption | right; assumption].
      * intros [[-> ->]|[Hne [[= <- <-]|Hin]]].
        -- right. left. split; reflexivity.
        -- left. reflexivity.
        -- right. right. split; assumption.
Qed.

Lemma py_dict_fold_spec (pairs d : list (pystr * pyval)) (k : pystr) (v : pyval) :
  List.NoDup (map fst d) ->
  List.NoDup (map fst (fold_left (fun acc p => dict_set acc (fst p) (snd p)) pairs d))
  /\ (In (k, v) (fold_left (fun acc p => dict_set acc (fst p) (snd p)) pairs d)
      <-> match last_value pairs k with
          | Some w => v = w
          | None => In (k, v) d
          end).
Proof.
  revert d. induction pairs as [|[k0 v0] pairs IH]; intros d H; simpl.
  - split; [assumption | reflexivity].
  - destruct (IH (dict_set d k0 v0) (dict_set_nodup d k0 v0 H)) as [Hn Hin].
    split; [exact Hn|]. rewrite Hin.
    destruct (last_value pairs k); [reflexivity|].
    rewrite dict_set_in by assumption.
    destruct (PyStr.eqb k0 k) eqn:E.
    + apply eqb_eq in E. subst k0. intuition congruence.
    + apply eqb_neq in E. intuition congruence.
Qed.

(** X11.  The dictionary built from pairs has every key once, and holds
    for a key the value of the last pair with that key: when two columns
    of a result have the same name, a row's dictionary keeps only the
    later cell. *)
Theorem row_dict_keeps_last_value (pairs : list (pystr * pyval))
    (k : pystr) (v : pyval) :
  List.NoDup (map fst (py_dict pairs))
  /\ (In (k, v) (py_dict pairs) <-> last_value pairs k = Some v).
Proof.
  destruct (py_dict_fold_spec pairs [] k v (List.NoDup_nil _)) as [Hn Hin].
  split; [exact Hn|]. unfold py_dict. rewrite Hin.
  destruct (last_value pairs k); simpl; split; try congruence; try tauto.
Qed.

(** ** The prefix test *)











(** ** The tool list *)

Lemma guarded_query_makes_calls (env : Env) (sql : pystr) :
  fst (run (guarded_query sql) env) <> [].
Proof. exec; discriminate. Qed.

(** X14.  [handle_list_tools] touches neither pool nor database, and the
    tools it advertises are exactly the names [handle_call_tool] does not
    turn away as unknown: a name gets the unknown-tool error exactly when
    it is not in the list. *)
Theorem advertised_tools_are_the_known_ones (env : Env) :
  exists tools,
    run handle_list_tools env = ([], Return tools)
    /\ forall name arguments,
         ~ In name (map Tool.name tools)
         <-> run (handle_call_tool name arguments) env
             = ([], Raise (ValueError (Lit.UNKNOWN_TOOL ++ name))).
Proof.
  eexists. split; [reflexivity|]. intros name arguments. cbn [map Tool.name In].
  split.
  - intros H. apply call_tool_unknown. apply eqb_neq.
    intros ->. apply H. left. reflexivity.
  - intros H [<-|[]].
    destruct (PyStr.eqb (sql_of arguments) []) eqn:Hempty.
    + apply eqb_eq in Hempty.
      rewrite (call_tool_empty env arguments Hempty) in H.
      vm_compute in H. discriminate.
    + apply eqb_neq in Hempty.
      destruct (PyStr.startswith
                  (PyStr.lower (unicode_lower (rt env)) (sql_of arguments))
                  Lit.SELECT) eqn:Hsel.
      * assert (Hacc : accepted (rt env) (default [] (arguments !! Lit.SQL))
                       = true).
        { unfold accepted. fold (sql_of arguments). rewrite Hsel.
          apply eqb_neq in Hempty. rewrite Hempty. reflexivity. }
        unfold run in H. rewrite call_tool_accepted in H by assumption.
        apply (guarded_query_makes_calls env (sql_of arguments)).
        unfold run. destruct (guarded_query _ _ _) as [st o].
        injection H as H _. exact H.
      * rewrite (call_tool_non_select env arguments Hempty Hsel) in H.
        vm_compute in H. discriminate.
Qed.

(** ** Start and stop *)

Ltac settled t :=
  lazymatch t with
  | context [Startup.faulted] => fail
  | _ => idtac
  end.

Ltac boot_answer :=
  match goal with
  | |- context [Startup.w_from_url ?w ?t ?u ?h] =>
      settled t; destruct (Startup.w_from_url w t u h) as [?|?] eqn:?
  | |- context [Startup.w_create_logger ?w ?t ?n ?c] =>
      settled t; destruct (Startup.w_create_logger w t n c) as [[]|?] eqn:?
  | |- context [Startup.w_get_connection_params ?w ?t ?c] =>
      settled t;
      destruct (Startup.w_get_connection_params w t c) as [?|?] eqn:?
  | |- context [Startup.w_connect ?w ?t ?p] =>
      settled t; destruct (Startup.w_connect w t p) as [?|?] eqn:?
  | |- context [Startup.w_close ?w ?t ?c] =>
      settled t; destruct (Startup.w_close w t c) as [[]|?] eqn:?
  | |- context [Startup.w_new_pool ?w ?t ?lo ?hi ?p] =>
      settled t; destruct (Startup.w_new_pool w t lo hi p) as [?|?] eqn:?
  | |- context [Startup.w_new_server ?w ?t ?n] =>
      settled t; destruct (Startup.w_new_server w t n) as [[]|?] eqn:?
  | |- context [Startup.w_setup_handlers ?w ?t] =>
      settled t; destruct (Startup.w_setup_handlers w t) as [[]|?] eqn:?
  | |- context [Startup.w_serve ?w ?t] =>
      settled t; destruct (Startup.w_serve w t) as [[]|?] eqn:?
  | |- context [Startup.w_closeall ?w ?t ?p] =>
      settled t; destruct (Startup.w_closeall w t p) as [[]|?] eqn:?
  | |- context [Startup.is_psycopg ?f] =>
      is_var f; destruct f as [[]| |]
  | |- context [Startup.is_keyboard_interrupt ?f] =>
      is_var f; destruct f as [[]| |]
  end.

Ltac boot_simpl :=
  cbn [Startup.calls Startup.server_var Startup.faulted app fst snd
       Startup.is_psycopg Startup.is_keyboard_interrupt is_psycopg_error
       Startup.srv_pool].

Ltac boot_start :=
  cbv [Startup.run Startup.serve_until_stopped Startup.init Startup.cleanup
       Startup.from_url Startup.create_logger Startup.get_connection_params
       Startup.connect Startup.close Startup.new_pool Startup.new_server
       Startup.setup_handlers Startup.serve Startup.closeall Startup.runtime
       Startup.log Startup.print_err Startup.bind_server
       Startup.server_in_locals Startup.does Startup.finally_
       Startup.except_ Startup.and_then Startup.unit_ Startup.throw];
  boot_simpl.

Ltac boot := boot_start; repeat (boot_answer; boot_simpl).

Lemma main_without_url (w : Startup.World) (argv : list pystr) :
  (length argv < 2)%nat ->
  Startup.run (Startup.main argv) w
  = ([Startup.Ev (Startup.PrintErr Startup.USAGE) None],
     Startup.Fault (Startup.SystemExit 1)).
Proof.
  intros H. unfold Startup.main.
  destruct (Nat.ltb_spec (length argv) 2); [reflexivity | lia].
Qed.

Lemma main_with_url (w : Startup.World) (argv0 url : pystr) (rest : list pystr) :
  Startup.run (Startup.main (argv0 :: url :: rest)) w
  = Startup.run (Startup.serve_until_stopped url (head rest)) w.
Proof. destruct rest; reflexivity. Qed.

(** X15.  [main] called without a database URL prints the usage line to
    standard error and exits with status 1; it parses no configuration,
    opens no connection and runs no cleanup. *)
Theorem main_without_url_exits (w : Startup.World) (argv : list pystr) :
  (length argv < 2)%nat ->
  Startup.run (Startup.main argv) w
  = ([Startup.Ev (Startup.PrintErr Startup.USAGE) None],
     Startup.Fault (Startup.SystemExit 1)).
Proof. apply main_without_url. Qed.

Lemma main_without_url_exits_witness :
  (length [PyStr.py "mcp_postgres"] < 2)%nat
  /\ Startup.run (Startup.main [PyStr.py "mcp_postgres"]) Startup.calm
     = ([Startup.Ev (Startup.PrintErr Startup.USAGE) None],
        Startup.Fault (Startup.SystemExit 1)).
Proof.
  assert (H : (length [PyStr.py "mcp_postgres"] < 2)%nat) by (simpl; lia).
  split; [exact H|].
  exact (main_without_url_exits Startup.calm [PyStr.py "mcp_postgres"] H).
Defined.

(** X16.  When the constructor returns, no call has failed and its calls
    were, in this order: the logger, the connection parameters, one probe
    connection opened with those parameters, the close of the connection
    that [connect] returned, then the pool with bounds 1 and 5 and the
    same parameters, then the protocol server and its handlers; the
    server object holds the pool that the pool constructor returned. *)
Theorem constructor_probes_before_pooling
    (w : Startup.World) (cfg : Startup.config)
    (t : Startup.trace) (srv : Startup.Server) :
  Startup.run (Startup.init cfg) w = (t, Startup.Done srv) ->
  exists params c p,
    Startup.w_get_connection_params w (firstn 1 t) cfg = Startup.Done params
    /\ Startup.w_connect w (firstn 3 t) params = Startup.Done c
    /\ Startup.w_new_pool w (firstn 6 t) 1 5 params = Startup.Done p
    /\ srv = {| Startup.srv_pool := Some p |}
    /\ t = [Startup.Ev (Startup.CreateLogger Startup.LOGGER cfg) None;
            Startup.Ev (Startup.GetConnectionParams cfg) None;
            Startup.Ev (Startup.Log Lit.INFO
                          (Startup.CONNECTING
                             ++ py_format (Startup.w_rt w) params)) None;
            Startup.Ev (Startup.Connect params) None;
            Startup.Ev (Startup.Close c) None;
            Startup.Ev (Startup.Log Lit.INFO Startup.PROBE_OK) None;
            Startup.Ev (Startup.NewPool 1 5 params) None;
            Startup.Ev (Startup.Log Lit.INFO Startup.POOL_OK) None;
            Startup.Ev (Startup.NewServer Startup.SERVER_NAME) None;
            Startup.Ev Startup.SetupHandlers None].
Proof.
  match goal with |- _ -> ?C => set (Concl := C) end.
  boot; intros H; subst Concl;
    first [ discriminate H
          | injection H as <- <-; do 3 eexists; cbn [firstn];
            repeat (split; [first [eassumption | reflexivity]|]);
            reflexivity ].
Qed.

Lemma constructor_probes_before_pooling_witness :
  let params := PyDict [(PyStr.py "host", PyStr (PyStr.py "localhost"))] in
  let t :=
    [Startup.Ev (Startup.CreateLogger Startup.LOGGER 1) None;
     Startup.Ev (Startup.GetConnectionParams 1) None;
     Startup.Ev (Startup.Log Lit.INFO
                   (Startup.CONNECTING
                      ++ py_format (Startup.w_rt Startup.calm) params)) None;
     Startup.Ev (Startup.Connect params) None;
     Startup.Ev (Startup.Close 3) None;
     Startup.Ev (Startup.Log Lit.INFO Startup.PROBE_OK) None;
     Startup.Ev (Startup.NewPool 1 5 params) None;
     Startup.Ev (Startup.Log Lit.INFO Startup.POOL_OK) None;
     Startup.Ev (Startup.NewServer Startup.SERVER_NAME) None;
     Startup.Ev Startup.SetupHandlers None] in
  Startup.run (Startup.init 1) Startup.calm
  = (t, Startup.Done {| Startup.srv_pool := Some 9 |})
  /\ exists params' c p,
       Startup.w_connect Startup.calm (firstn 3 t) params' = Startup.Done c
       /\ Startup.w_new_pool Startup.calm (firstn 6 t) 1 5 params'
          = Startup.Done p
       /\ {| Startup.srv_pool := Some 9 |} = {| Startup.srv_pool := Some p |}.
Proof.
  intros params t.
  assert (Hrun : Startup.run (Startup.init 1) Startup.calm
                 = (t, Startup.Done {| Startup.srv_pool := Some 9 |}))
    by (vm_compute; reflexivity).
  split; [exact Hrun|].
  destruct (constructor_probes_before_pooling Startup.calm 1 _ _ Hrun)
    as (params' & c & p & _ & Hc & Hp & Hsrv & _).
  exists params', c, p. split; [exact Hc|]. split; [exact Hp | exact Hsrv].
Defined.

Ltac by_last_fault H :=
  cbn [Startup.last_failure Startup.ev_fault Startup.ev_call] in H;
  first [ discriminate H | inversion H; subst ].

(** X17.  When the last call to fail in the constructor is one of its
    [try] block (connection parameters, probe connection, its close, pool
    creation) and raised a psycopg2 error, the constructor logs the
    connection-failure prefix followed by the error's message at level
    [error] as its last call and raises that same error; no pool has come
    into being and the protocol server is not set up.  A fault of another
    kind from these calls is raised without that log line. *)
Theorem constructor_reports_driver_errors
    (w : Startup.World) (cfg : Startup.config)
    (c : Startup.call) (f : Startup.fault) :
  Startup.last_failure (fst (Startup.run (Startup.init cfg) w)) = Some (c, f) ->
  Startup.in_probe c = true ->
  snd (Startup.run (Startup.init cfg) w) = Startup.Fault f
  /\ Startup.pools_created (fst (Startup.run (Startup.init cfg) w)) = 0%nat
  /\ Startup.constructed (fst (Startup.run (Startup.init cfg) w)) = false
  /\ last (fst (Startup.run (Startup.init cfg) w))
     = Some (if Startup.is_psycopg f
             then Startup.Ev
                    (Startup.Log Lit.ERROR
                       (Startup.CONNECT_FAILED ++ Startup.fault_str f)) None
             else Startup.Ev c (Some f)).
Proof.
  boot; intros H Hc; by_last_fault H; try discriminate Hc;
    repeat split; reflexivity.
Qed.

Lemma constructor_reports_driver_errors_witness :
  let refused := Startup.Exn (PsycopgError (PyStr.py "connection refused")) in
  let w := Startup.fail_at 3 refused Startup.calm in
  Startup.run (Startup.init 1) w
  = ([Startup.Ev (Startup.CreateLogger Startup.LOGGER 1) None;
      Startup.Ev (Startup.GetConnectionParams 1) None;
      Startup.Ev (Startup.Log Lit.INFO
                    (Startup.CONNECTING
                       ++ PyStr.py "{'host': 'localhost'}")) None;
      Startup.Ev (Startup.Connect
                    (PyDict [(PyStr.py "host", PyStr (PyStr.py "localhost"))]))
        (Some refused);
      Startup.Ev (Startup.Log Lit.ERROR
                    (Startup.CONNECT_FAILED ++ PyStr.py "connection refused"))
        None],
     Startup.Fault refused)
  /\ snd (Startup.run (Startup.init 1) w) = Startup.Fault refused
  /\ Startup.pools_created (fst (Startup.run (Startup.init 1) w)) = 0%nat.
Proof.
  intros refused w. split; [vm_compute; reflexivity|].
  destruct (constructor_reports_driver_errors w 1
              (Startup.Connect
                 (PyDict [(PyStr.py "host", PyStr (PyStr.py "localhost"))]))
              refused) as (H1 & H2 & _);
    [vm_compute; reflexivity | reflexivity |].
  split; [exact H1 | exact H2].
Defined.

Lemma serve_until_stopped_closes_pool (w : Startup.World)
    (url : pystr) (local_host : option pystr) :
  let t := fst (Startup.run (Startup.serve_until_stopped url local_host) w) in
  Startup.closeall_calls t = (if Startup.constructed t then 1 else 0)%nat
  /\ (Startup.pools_created t <= 1)%nat
  /\ (Startup.constructed t = true -> Startup.pools_created t = 1%nat).
Proof.
  boot; cbv [Startup.closeall_calls Startup.constructed Startup.pools_created
             Startup.returned Startup.ev_call Startup.ev_fault
             List.filter existsb orb length];
    repeat split; first [reflexivity | lia | discriminate].
Qed.

Lemma serve_until_stopped_closes_its_pool (w : Startup.World)
    (url : pystr) (local_host : option pystr) (p : Startup.pool)
    (r : option Startup.fault) :
  let t := fst (Startup.run (Startup.serve_until_stopped url local_host) w) in
  In (Startup.Ev (Startup.Closeall p) r) t ->
  exists n params,
    t !! n = Some (Startup.Ev (Startup.NewPool 1 5 params) None)
    /\ Startup.w_new_pool w (firstn n t) 1 5 params = Startup.Done p
    /\ last t = Some (Startup.Ev (Startup.Closeall p) r).
Proof.
  boot; cbn [In]; intros H;
    repeat match goal with H : _ \/ _ |- _ => destruct H as [H|H] end;
    first [ discriminate H
          | contradiction
          | injection H as <- <-; exists 7%nat; eexists;
            cbn [firstn lookup list_lookup];
            split; [reflexivity | split; [eassumption | reflexivity]] ].
Qed.

(** X18.  In every run of [main], [closeall] is called once if the
    constructor ran to its end and not at all otherwise, and at most one
    pool comes into being.  Every [closeall] call is made on the pool that
    the pool constructor returned earlier in the same run, and is the last
    call of the run.  So the pool a finished constructor built is closed
    on every way out of serving, also after an interrupt or an error; a
    pool whose constructor failed afterwards (in setting up the protocol
    server) is not closed. *)
Theorem main_closes_the_pool_it_built (w : Startup.World) (argv : list pystr) :
  let t := fst (Startup.run (Startup.main argv) w) in
  Startup.closeall_calls t = (if Startup.constructed t then 1 else 0)%nat
  /\ (Startup.pools_created t <= 1)%nat
  /\ (Startup.constructed t = true -> Startup.pools_created t = 1%nat)
  /\ (forall p r,
        In (Startup.Ev (Startup.Closeall p) r) t ->
        exists n params,
          t !! n = Some (Startup.Ev (Startup.NewPool 1 5 params) None)
          /\ Startup.w_new_pool w (firstn n t) 1 5 params = Startup.Done p
          /\ last t = Some (Startup.Ev (Startup.Closeall p) r)).
Proof.
  destruct argv as [|argv0 [|url rest]].
  - rewrite (main_without_url w []) by (simpl; lia).
    repeat split; try first [reflexivity | cbv; lia | discriminate].
    intros p r [H|[]]. discriminate H.
  - rewrite (main_without_url w [argv0]) by (simpl; lia).
    repeat split; try first [reflexivity | cbv; lia | discriminate].
    intros p r [H|[]]. discriminate H.
  - rewrite main_with_url.
    destruct (serve_until_stopped_closes_pool w url (head rest))
      as (H1 & H2 & H3).
    split; [exact H1|]. split; [exact H2|]. split; [exact H3|].
    intros p r. apply serve_until_stopped_closes_its_pool.
Qed.

Lemma serve_until_stopped_interrupt (w : Startup.World)
    (url : pystr) (local_host : option pystr) (c : Startup.call) :
  Startup.last_failure
    (fst (Startup.run (Startup.serve_until_stopped url local_host) w))
  = Some (c, Startup.KeyboardInterrupt) ->
  (forall p, c <> Startup.Closeall p) ->
  snd (Startup.run (Startup.serve_until_stopped url local_host) w)
  = Startup.Done tt
  /\ In (Startup.Ev (Startup.PrintErr Startup.STOPPED) None)
        (fst (Startup.run (Startup.serve_until_stopped url local_host) w)).
Proof.
  boot; intros H Hc; by_last_fault H;
    first [ exfalso; eapply Hc; reflexivity
          | split; [reflexivity | find_event] ].
Qed.

Lemma serve_until_stopped_fault (w : Startup.World)
    (url : pystr) (local_host : option pystr)
    (c : Startup.call) (f : Startup.fault) :
  Startup.last_failure
    (fst (Startup.run (Startup.serve_until_stopped url local_host) w))
  = Some (c, f) ->
  Startup.is_keyboard_interrupt f = false ->
  snd (Startup.run (Startup.serve_until_stopped url local_host) w)
  = Startup.Fault f.
Proof.
  boot; intros H Hf; by_last_fault H;
    first [ discriminate Hf | reflexivity ].
Qed.

(** X19.  A [KeyboardInterrupt] raised by any call of [main] other than
    [closeall] is swallowed: [main] prints the stop message and returns
    normally.  Any other fault of the last call to fail leaves [main] as
    it was raised. *)
Theorem main_swallows_only_interrupts (w : Startup.World) (argv : list pystr) :
  (forall c,
     Startup.last_failure (fst (Startup.run (Startup.main argv) w))
     = Some (c, Startup.KeyboardInterrupt) ->
     (forall p, c <> Startup.Closeall p) ->
     snd (Startup.run (Startup.main argv) w) = Startup.Done tt
     /\ In (Startup.Ev (Startup.PrintErr Startup.STOPPED) None)
           (fst (Startup.run (Startup.main argv) w)))
  /\ (forall c f,
        Startup.last_failure (fst (Startup.run (Startup.main argv) w))
        = Some (c, f) ->
        Startup.is_keyboard_interrupt f = false ->
        snd (Startup.run (Startup.main argv) w) = Startup.Fault f).
Proof.
  destruct argv as [|argv0 [|url rest]].
  - rewrite (main_without_url w []) by (simpl; lia).
    split; intros; discriminate.
  - rewrite (main_without_url w [argv0]) by (simpl; lia).
    split; intros; discriminate.
  - rewrite main_with_url. split.
    + apply serve_until_stopped_interrupt.
    + apply serve_until_stopped_fault.
Qed.

Lemma main_swallows_only_interrupts_witness :
  let argv := [PyStr.py "mcp_postgres"; PyStr.py "postgresql://u@h/db"] in
  let interrupted := Startup.fail_at 11 Startup.KeyboardInterrupt Startup.calm in
  let broken :=
    Startup.fail_at 11 (Startup.Exn (OtherError (PyStr.py "broken pipe")))
      Startup.calm in
  (snd (Startup.run (Startup.main argv) interrupted) = Startup.Done tt
   /\ Startup.closeall_calls (fst (Startup.run (Startup.main argv) interrupted))
      = 1%nat)
  /\ snd (Startup.run (Startup.main argv) broken)
     = Startup.Fault (Startup.Exn (OtherError (PyStr.py "broken pipe"))).
Proof.
  intros argv interrupted broken.
  destruct (proj1 (main_swallows_only_interrupts interrupted argv) Startup.Serve)
    as [H1 _]; [vm_compute; reflexivity | discriminate |].
  assert (H2 : Startup.closeall_calls
                 (fst (Startup.run (Startup.main argv) interrupted)) = 1%nat)
    by (vm_compute; reflexivity).
  pose proof (proj2 (main_swallows_only_interrupts broken argv) Startup.Serve
                (Startup.Exn (OtherError (PyStr.py "broken pipe")))) as H3.
  split; [split; [exact H1 | exact H2]|].
  apply H3; [vm_compute; reflexivity | reflexivity].
Defined.

Lemma main_closes_the_pool_it_built_witness :
  let argv := [PyStr.py "mcp_postgres"; PyStr.py "postgresql://u@h/db";
               PyStr.py "db.internal"] in
  let interrupted := Startup.fail_at 11 Startup.KeyboardInterrupt Startup.calm in
  let half_built :=
    Startup.fail_at 9 (Startup.Exn (OtherError (PyStr.py "no server")))
      Startup.calm in
  (Startup.pools_created (fst (Startup.run (Startup.main argv) interrupted))
   = 1%nat
   /\ Startup.closeall_calls (fst (Startup.run (Startup.main argv) interrupted))
      = 1%nat
   /\ exists n params,
        fst (Startup.run (Startup.main argv) interrupted) !! n
        = Some (Startup.Ev (Startup.NewPool 1 5 params) None)
        /\ Startup.w_new_pool interrupted
             (firstn n (fst (Startup.run (Startup.main argv) interrupted)))
             1 5 params
           = Startup.Done 9
        /\ last (fst (Startup.run (Startup.main argv) interrupted))
           = Some (Startup.Ev (Startup.Closeall 9) None))
  /\ (Startup.pools_created (fst (Startup.run (Startup.main argv) half_built))
      = 1%nat
      /\ Startup.closeall_calls
           (fst (Startup.run (Startup.main argv) half_built))
         = 0%nat).
Proof.
  intros argv interrupted half_built.
  destruct (main_closes_the_pool_it_built interrupted argv)
    as (H1 & _ & H2 & H4).
  destruct (main_closes_the_pool_it_built half_built argv) as (H3 & _ & _ & _).
  assert (Hc : Startup.constructed
                 (fst (Startup.run (Startup.main argv) interrupted)) = true)
    by (vm_compute; reflexivity).
  assert (Hh : Startup.constructed
                 (fst (Startup.run (Startup.main argv) half_built)) = false)
    by (vm_compute; reflexivity).
  rewrite Hc in H1. rewrite Hh in H3.
  split; [split; [exact (H2 Hc) | split; [exact H1|]]|].
  - apply (H4 9 None). vm_compute. tauto.
  - split; [vm_compute; reflexivity | exact H3].
Defined.

(** ** The transaction around a query *)

(** X20.  For every [sql] argument the validation accepts and whatever
    pool, connection and cursor do, the statements the query tool sends
    are: none at all (no connection or no cursor); or
    [BEGIN TRANSACTION READ ONLY] alone, when it raised; or
    [BEGIN TRANSACTION READ ONLY], the stripped text of the caller and
    [ROLLBACK], in this order, on one cursor and without bound
    parameters, whether the caller's text or the [ROLLBACK] returned or
    raised.  The handler adds no statement of its own besides these two
    and sends the caller's text unchanged. *)
Theorem query_statements_are_bracketed
    (env : Env) (arguments : gmap pystr pystr) :
  accepted (rt env) (default [] (arguments !! Lit.SQL)) = true ->
  exists k,
    bracketed k (sql_of arguments)
      (cursor_statements
         (fst (run (handle_call_tool Lit.QUERY arguments) env))).
Proof.
  intros Hacc. unfold run. rewrite call_tool_accepted by assumption.
  apply (guarded_query_bracketed env (sql_of arguments)).
Qed.

Lemma query_statements_are_bracketed_witness :
  let arguments : gmap pystr pystr := {[ Lit.SQL := Inputs.select_one ]} in
  let env := Sample.fail_at 5 Inputs.syntax_error Sample.users_db in
  accepted (rt env) (default [] (arguments !! Lit.SQL)) = true
  /\ cursor_statements (fst (run (handle_call_tool Lit.QUERY arguments) env))
     = [(7, Lit.BEGIN_READ_ONLY, [], true);
        (7, sql_of arguments, [], true);
        (7, Lit.ROLLBACK, [], true)]
  /\ exists k,
       bracketed k (sql_of arguments)
         (cursor_statements
            (fst (run (handle_call_tool Lit.QUERY arguments) env))).
Proof.
  intros arguments env.
  assert (Hacc : accepted (rt env) (default [] (arguments !! Lit.SQL)) = true)
    by (vm_compute; reflexivity).
  split; [exact Hacc|]. split; [vm_compute; reflexivity|].
  exact (query_statements_are_bracketed env arguments Hacc).
Defined.
